(** * go-mfs [file.go]: the mutable file over an immutable DAG node

    A shallow embedding of [File] and of its methods [NewFile], [Open],
    [Size], [GetNode], [Flush] and [Sync].

    The methods are written as small programs over the atomic actions the Go
    code performs on one [File] (mutex operations and field accesses).  A
    program is run either alone ([run], executable) or interleaved with the
    steps of other goroutines ([runs_with]). *)

From Stdlib Require Import ZArith List String Bool Lia Relations.
From Stdlib Require Import Strings.Byte.
Import ListNotations.
Open Scope Z_scope.

(** ** Go values *)

(** A Go [error] value; [Errorf] is what [fmt.Errorf] builds from a constant
    message.  The [nil] error is [None] of [option error]. *)
Inductive error : Type :=
| Errorf (msg : string).

(** Conversion of an integer to Go's [int64]: two's complement wrap-around. *)
Definition int64 (z : Z) : Z := (z + 2 ^ 63) mod 2 ^ 64 - 2 ^ 63.

(** [len] of a byte slice, a Go [int]. *)
Definition len (b : list byte) : Z := Z.of_nat (List.length b).

(** What a foreign function with a Go signature [(T, error)] hands back when
    it keeps the usual contract: a value or an error, never both. *)
Inductive result (A : Type) : Type :=
| Ok (a : A)
| Err (e : error).
Arguments Ok {A} a.
Arguments Err {A} e.

(** ** sync.Mutex and sync.RWMutex *)

Module Mutex.
(** [true] while some goroutine holds the mutex. *)
Definition t := bool.
Definition unlocked : t := false.
End Mutex.

Module RWMutex.
(** The abstract state of a [sync.RWMutex]: how many read locks are held
    and whether the write lock is held.  Goroutines that wait for the lock
    are not part of the state: an operation that cannot be granted is not
    performed. *)
Record t : Type := mk { readers : nat; writer : bool }.

Definition unlocked : t := mk 0 false.

(** No reader and no writer: [Lock] can be granted. *)
Definition free (l : t) : bool := negb (writer l) && Nat.eqb (readers l) 0.

(** [RLock] can be granted only when no writer holds the lock.  Go also
    makes a new reader wait behind a writer that is waiting; waiting
    goroutines are not in this state, so what is stated of [RLock] being
    granted holds when no writer is waiting. *)
Definition RLock (l : t) : option t :=
  if writer l then None else Some (mk (S (readers l)) false).

(** [Lock] is granted when nobody holds the lock. *)
Definition Lock (l : t) : option t :=
  if free l then Some (mk 0 true) else None.

(** [RUnlock] and [Unlock] give [None] where the Go runtime stops the
    program (unlock of a lock that is not held). *)
Definition RUnlock (l : t) : option t :=
  match readers l with
  | O => None
  | S n => Some (mk n (writer l))
  end.

Definition Unlock (l : t) : option t :=
  if writer l then Some (mk (readers l) false) else None.
End RWMutex.

(** ** The collaborators of the file: ipld, merkledag, unixfs *)

(** An [ipld.Node] by its dynamic type: [*dag.ProtoNode], [*dag.RawNode], or
    another implementation of the interface.  [cidVersion] is what
    [Cid().Prefix().Version] returns (a [uint64]); [data] is [Data()] of a
    ProtoNode and [RawData()] of the others.  A [Node] is never nil: the
    node of a file is the one [NewFile] was given, and [NewFile] panics on a
    nil one; the argument of [NewFile], which may be nil, is an
    [option Node] (see [NewFile_iface]). *)
Inductive Node : Type :=
| ProtoNode (cidVersion : Z) (data : list byte)
| RawNode (cidVersion : Z) (data : list byte)
| OtherNode (cidVersion : Z) (data : list byte).

Definition Cid_Prefix_Version (n : Node) : Z :=
  match n with
  | ProtoNode v _ | RawNode v _ | OtherNode v _ => v
  end.

(** The unixfs data types ([pb.Data_DataType]). *)
Inductive DataType : Type :=
| TRaw | TDirectory | TFile | TMetadata | TSymlink | THAMTShard.

(** A decoded [ft.FSNode]: [Type()] and [FileSize()], the latter a
    [uint64] in go-unixfs. *)
Record FSNode : Type := mkFSNode { fsn_Type : DataType; fsn_FileSize : Z }.

Module Mod.
(** [mod.DagModifier] of go-unixfs: its internals, whatever they are, and
    its exported field [RawLeaves]. *)
Record DagModifier (ModState : Type) : Type :=
  mk { state : ModState; RawLeaves : bool }.
Arguments mk {ModState} state RawLeaves.
Arguments state {ModState} d.
Arguments RawLeaves {ModState} d.

(** The assignment [dmod.RawLeaves = b]. *)
Definition set_RawLeaves {ModState : Type} (d : DagModifier ModState)
    (b : bool) : DagModifier ModState :=
  mk (state d) b.
End Mod.

(** The packages the file is built on.  Their code is not part of this
    package, so they are an interface. *)
Class Collaborators : Type := {
  childCloser : Type;
  DAGService : Type;
  SplitterGen : Type;
  ModState : Type;
  (** [ft.FSNodeFromBytes] *)
  FSNodeFromBytes : list byte -> result FSNode;
  (** [chunker.DefaultSplitter] *)
  DefaultSplitter : SplitterGen;
  (** [mod.NewDagModifier], on the node, the DAG service and the splitter *)
  NewDagModifier :
    Node -> DAGService -> SplitterGen -> result (Mod.DagModifier ModState);
}.

(** [mod.ErrNotUnixfs] of go-unixfs. *)
Definition ErrNotUnixfs : error :=
  Errorf "dagmodifier only supports unixfs nodes (proto or raw)".

(** What [mod.NewDagModifier] of go-unixfs does with the node it is given:
    its own type switch lets a ProtoNode and a RawNode through and returns
    [ErrNotUnixfs] for a node of any other type; the DAG service is stored
    in the modifier, not called. *)
Definition unixfs_modifier `{Collaborators} : Prop :=
  forall (nd : Node) (dserv : DAGService) (spl : SplitterGen),
    match nd with
    | ProtoNode _ _ | RawNode _ _ =>
        exists dmod, NewDagModifier nd dserv spl = Ok dmod
    | OtherNode _ _ => NewDagModifier nd dserv spl = Err ErrNotUnixfs
    end.

(** What a call of a Go function comes to: a run-time panic, or its
    results. *)
Inductive call (A : Type) : Type :=
| Panicked
| Returned (a : A).
Arguments Panicked {A}.
Arguments Returned {A} a.

Section MFS.
Context `{C : Collaborators}.

Definition DagModifier : Type := Mod.DagModifier ModState.

(** ** The data model of file.go *)

Record inode : Type := mkInode {
  name : string;
  parent : childCloser;
  dagService : DAGService;
}.

Record File : Type := mkFile {
  file_inode : inode;
  desclock : RWMutex.t;
  node : Node;
  nodelk : Mutex.t;
  RawLeaves : bool;
}.

(** The [fileDescriptor] that [Open] builds.  Its field [inode] points to the
    file it was opened on, which is the file the programs below run on. *)
Record fileDescriptor : Type := mkFd {
  perms : Z;
  sync : bool;
  fd_mod : DagModifier;
}.

Definition OpenReadOnly : Z := 0.
Definition OpenWriteOnly : Z := 1.
Definition OpenReadWrite : Z := 2.

(** [NewFile]: the result pair of the Go function, a pointer that may be nil
    and an error that may be nil. *)
Definition NewFile (nm : string) (nd : Node) (p : childCloser)
    (dserv : DAGService) : option File * option error :=
  let fi := mkFile (mkInode nm p dserv) RWMutex.unlocked nd Mutex.unlocked false in
  let fi := if 0 <? Cid_Prefix_Version nd
            then mkFile (file_inode fi) (desclock fi) (node fi) (nodelk fi) true
            else fi in
  (Some fi, None).

(** [NewFile] on any value of its parameter [node ipld.Node]: [None] is the
    nil interface value or a nil [*dag.ProtoNode] or [*dag.RawNode] in it,
    on which [node.Cid()] at line 38 panics with a nil dereference. *)
Definition NewFile_iface (nm : string) (nd : option Node) (p : childCloser)
    (dserv : DAGService) : call (option File * option error) :=
  match nd with
  | None => Panicked
  | Some n => Returned (NewFile nm n p dserv)
  end.

(** ** Programs over one file *)

(** The atomic actions of a goroutine on the file. *)
Inductive Op : Type -> Type :=
| nodelk_Lock : Op unit
| nodelk_Unlock : Op unit
| desclock_RLock : Op unit
| desclock_Lock : Op unit
| desclock_RUnlock : Op unit
| desclock_Unlock : Op unit
| load_node : Op Node
| store_node (nd : Node) : Op unit
| load_RawLeaves : Op bool
| load_inode : Op inode.

(** A method body: it returns, panics, or performs an action and goes on. *)
Inductive prog (A : Type) : Type :=
| Ret (a : A)
| Panic
| Vis (B : Type) (o : Op B) (k : B -> prog A).
Arguments Ret {A} a.
Arguments Panic {A}.
Arguments Vis {A B} o k.

Fixpoint bind {A B : Type} (p : prog A) (f : A -> prog B) : prog B :=
  match p with
  | Ret a => f a
  | Panic => Panic
  | Vis o k => Vis o (fun b => bind (k b) f)
  end.

Definition act {B : Type} (o : Op B) : prog B := Vis o Ret.

Notation "x <- p ;; q" := (bind p (fun x => q))
  (at level 61, p at next level, right associativity).
Notation "p ;; q" := (bind p (fun _ => q))
  (at level 61, right associativity).

(** [defer d] around a body: the body's result is computed, then the
    deferred call runs and its own result is dropped. *)
Definition defer {A B : Type} (d : prog B) (body : prog A) : prog A :=
  bind body (fun a => bind d (fun _ => Ret a)).

(** What one attempt to run a program to its end gives: it waits on a lock
    ([Blocked]), the runtime stops the program ([Crashed]), or it returns a
    value and leaves the file in a new state. *)
Inductive outcome (A : Type) : Type :=
| Blocked
| Crashed
| Done (a : A) (fi : File).
Arguments Blocked {A}.
Arguments Crashed {A}.
Arguments Done {A} a fi.

Definition set_desclock (fi : File) (l : RWMutex.t) : File :=
  mkFile (file_inode fi) l (node fi) (nodelk fi) (RawLeaves fi).
Definition set_nodelk (fi : File) (l : Mutex.t) : File :=
  mkFile (file_inode fi) (desclock fi) (node fi) l (RawLeaves fi).
Definition set_node (fi : File) (nd : Node) : File :=
  mkFile (file_inode fi) (desclock fi) nd (nodelk fi) (RawLeaves fi).

(** One atomic action on the file. *)
Definition exec_op {B : Type} (o : Op B) (fi : File) : outcome B :=
  match o in Op T return outcome T with
  | nodelk_Lock =>
      if nodelk fi then Blocked else Done tt (set_nodelk fi true)
  | nodelk_Unlock =>
      if nodelk fi then Done tt (set_nodelk fi false) else Crashed
  | desclock_RLock =>
      match RWMutex.RLock (desclock fi) with
      | Some l => Done tt (set_desclock fi l)
      | None => Blocked
      end
  | desclock_Lock =>
      match RWMutex.Lock (desclock fi) with
      | Some l => Done tt (set_desclock fi l)
      | None => Blocked
      end
  | desclock_RUnlock =>
      match RWMutex.RUnlock (desclock fi) with
      | Some l => Done tt (set_desclock fi l)
      | None => Crashed
      end
  | desclock_Unlock =>
      match RWMutex.Unlock (desclock fi) with
      | Some l => Done tt (set_desclock fi l)
      | None => Crashed
      end
  | load_node => Done (node fi) fi
  | store_node nd => Done tt (set_node fi nd)
  | load_RawLeaves => Done (RawLeaves fi) fi
  | load_inode => Done (file_inode fi) fi
  end.

(** A program run by one goroutine with no other goroutine in between. *)
Fixpoint run {A : Type} (p : prog A) (fi : File) : outcome A :=
  match p with
  | Ret a => Done a fi
  | Panic => Crashed
  | Vis o k =>
      match exec_op o fi with
      | Done b fi' => run (k b) fi'
      | Blocked => Blocked
      | Crashed => Crashed
      end
  end.

(** A program run while other goroutines act on the file: [env] is what
    one step of another goroutine may do, and any number of such steps may
    come before each action of this one.  The list holds the states in
    which this goroutine's own actions were performed. *)
Fixpoint runs_with (env : File -> File -> Prop) {A : Type} (p : prog A)
    (fi : File) (tr : list File) (a : A) (fi2 : File) : Prop :=
  match p with
  | Ret r => a = r /\ tr = [] /\ fi2 = fi
  | Panic => False
  | Vis o k =>
      exists s b s1 tr',
        clos_refl_trans_1n File env fi s /\
        exec_op o s = Done b s1 /\
        tr = s :: tr' /\
        runs_with env (k b) s1 tr' a fi2
  end.

(** Two programs that perform the same actions and return the same values. *)
Inductive same_prog {A : Type} : prog A -> prog A -> Prop :=
| same_ret a : same_prog (Ret a) (Ret a)
| same_panic : same_prog Panic Panic
| same_vis B (o : Op B) k k' :
    (forall b, same_prog (k b) (k' b)) ->
    same_prog (Vis o k) (Vis o k').

(** ** The methods of [File] *)

(** The errors of file.go, under the names the specification gives them. *)
Definition UnsupportedNodeType : error :=
  Errorf "unsupported fsnode type for 'file'".
Definition NotSupported : error := Errorf "symlinks not yet supported".
Definition UnsupportedMode : error := Errorf "mode not supported".
Definition CorruptState : error :=
  Errorf "unrecognized node type in mfs/file.Size()".

(** [Open], lines 51-53: the node is read under [nodelk]. *)
Definition Open_snapshot : prog Node :=
  act nodelk_Lock ;;
  nd <- act load_node ;;
  act nodelk_Unlock ;;
  Ret nd.

(** [Open], lines 55-72: the type switch on the node.  [Some e] is the early
    [return nil, e]; [None] falls through to the switch on the flags.  The
    type switch has no default case. *)
Definition Open_validate (nd : Node) : option error :=
  match nd with
  | ProtoNode _ data =>
      match FSNodeFromBytes data with
      | Err e => Some e
      | Ok fsn =>
          match fsn_Type fsn with
          | TSymlink => Some NotSupported
          | TFile | TRaw => None
          | _ => Some UnsupportedNodeType
          end
      end
  | RawNode _ _ => None
  | OtherNode _ _ => None
  end.

(** The nodes the specification calls file-shaped: a structured node of
    type file or raw, and a raw leaf. *)
Definition file_shaped (nd : Node) : bool :=
  match nd with
  | ProtoNode _ data =>
      match FSNodeFromBytes data with
      | Ok fsn =>
          match fsn_Type fsn with
          | TFile | TRaw => true
          | _ => false
          end
      | Err _ => false
      end
  | RawNode _ _ => true
  | OtherNode _ _ => false
  end.

(** [Open], lines 74-82: the switch on the flags.  [Some e] is the early
    return of the default case. *)
Definition Open_lock (flags : Z) : prog (option error) :=
  if flags =? OpenReadOnly then
    act desclock_RLock ;; Ret None
  else if (flags =? OpenWriteOnly) || (flags =? OpenReadWrite) then
    act desclock_Lock ;; Ret None
  else
    Ret (Some UnsupportedMode).

(** [Open], lines 84-95: the modifier and the descriptor. *)
Definition Open_descriptor (nd : Node) (flags : Z) (sync : bool) :
    prog (option fileDescriptor * option error) :=
  ino <- act load_inode ;;
  match NewDagModifier nd (dagService ino) DefaultSplitter with
  | Err e => Ret (None, Some e)
  | Ok dmod =>
      rl <- act load_RawLeaves ;;
      Ret (Some (mkFd flags sync (Mod.set_RawLeaves dmod rl)), None)
  end.

(** [Open] from line 74 on, for a node that went through the type switch. *)
Definition Open_proceed (nd : Node) (flags : Z) (sync : bool) :
    prog (option fileDescriptor * option error) :=
  r <- Open_lock flags ;;
  match r with
  | Some e => Ret (None, Some e)
  | None => Open_descriptor nd flags sync
  end.

Definition Open (flags : Z) (sync : bool) :
    prog (option fileDescriptor * option error) :=
  nd <- Open_snapshot ;;
  match Open_validate nd with
  | Some e => Ret (None, Some e)
  | None => Open_proceed nd flags sync
  end.

Definition Size : prog (Z * option error) :=
  act nodelk_Lock ;;
  defer (act nodelk_Unlock)
    (nd <- act load_node ;;
     match nd with
     | ProtoNode _ data =>
         match FSNodeFromBytes data with
         | Err e => Ret (0, Some e)
         | Ok fsn => Ret (int64 (fsn_FileSize fsn), None)
         end
     | RawNode _ data => Ret (int64 (len data), None)
     | OtherNode _ _ => Ret (0, Some CorruptState)
     end).

Definition GetNode : prog (Node * option error) :=
  act nodelk_Lock ;;
  defer (act nodelk_Unlock)
    (nd <- act load_node ;;
     Ret (nd, None)).

Definition Sync : prog (option error) :=
  act desclock_Lock ;;
  act desclock_Unlock ;;
  Ret None.

Section Descriptor.
(** The methods of the descriptor are in fd.go; [Flush] of the file is
    stated over whatever they do. *)
Variable fd_Flush : fileDescriptor -> prog (option error).
Variable fd_Close : fileDescriptor -> prog (option error).

(** [File.Flush].  A nil descriptor next to a nil error would make
    [defer fd.Close()] panic. *)
Definition Flush : prog (option error) :=
  r <- Open OpenWriteOnly true ;;
  match r with
  | (_, Some err) => Ret (Some err)
  | (None, None) => Panic
  | (Some fd, None) => defer (fd_Close fd) (fd_Flush fd)
  end.

(** [File.Flush] in the words of the specification: open a write-only,
    full-sync descriptor; invoke its flush; close it whatever the flush
    returned; fail with what Open or the flush failed with. *)
Definition Flush_spec : prog (option error) :=
  r <- Open OpenWriteOnly true ;;
  match snd r with
  | Some open_err => Ret (Some open_err)
  | None =>
      match fst r with
      | None => Panic
      | Some fd =>
          flush_err <- fd_Flush fd ;;
          fd_Close fd ;;
          Ret flush_err
      end
  end.

End Descriptor.

(** Modelled from the spec: [fileDescriptor.Close] of fd.go, which is not
    among the sources: it releases exactly the lock class acquired at Open,
    shared for read-only, exclusive for the write modes. *)
Definition spec_Close (fd : fileDescriptor) : prog (option error) :=
  if perms fd =? OpenReadOnly then
    act desclock_RUnlock ;; Ret None
  else if (perms fd =? OpenWriteOnly) || (perms fd =? OpenReadWrite) then
    act desclock_Unlock ;; Ret None
  else
    Ret None.

End MFS.

Arguments Ret {C A} a.
Arguments Panic {C A}.
Arguments Vis {C A B} o k.
Arguments Blocked {C A}.
Arguments Crashed {C A}.
Arguments Done {C A} a fi.

(** ** Stand-ins for the collaborators, for the examples *)

Module Toy.
(** A one-byte type tag followed by the file size, least significant byte
    first. *)
Definition tag (b : byte) : option DataType :=
  match b with
  | x00 => Some TRaw
  | x01 => Some TDirectory
  | x02 => Some TFile
  | x03 => Some TMetadata
  | x04 => Some TSymlink
  | x05 => Some THAMTShard
  | _ => None
  end.

Fixpoint size (bs : list byte) : Z :=
  match bs with
  | [] => 0
  | b :: r => Z.of_N (Byte.to_N b) + 256 * size r
  end.

Definition decode (bs : list byte) : result FSNode :=
  match bs with
  | [] => Err (Errorf "unexpected EOF")
  | t :: r =>
      match tag t with
      | Some ty => Ok (mkFSNode ty (size r))
      | None => Err (Errorf "unknown data type")
      end
  end.

(** The DAG service is a flag, which the modifier stores nowhere and does
    not consult.  The modifier keeps the node it was made from; like the
    one of go-unixfs it takes a ProtoNode and a RawNode, with [RawLeaves]
    set from the Cid version, and refuses any other node. *)
Definition new_modifier (nd : Node) (_ : bool) (_ : unit) :
    result (Mod.DagModifier Node) :=
  match nd with
  | ProtoNode v _ | RawNode v _ => Ok (Mod.mk nd (0 <? v))
  | OtherNode _ _ => Err ErrNotUnixfs
  end.

Definition collaborators : Collaborators :=
  {| childCloser := unit;
     DAGService := bool;
     SplitterGen := unit;
     ModState := Node;
     FSNodeFromBytes := decode;
     DefaultSplitter := tt;
     NewDagModifier := new_modifier |}.

Definition file (nd : Node) (dserv : bool) : File (C := collaborators) :=
  mkFile (mkInode (C := collaborators) "a.txt" tt dserv)
         RWMutex.unlocked nd Mutex.unlocked false.

(** A unixfs file of 5 bytes, a symlink, a directory, a payload that does
    not decode, a file that declares 2^63 bytes. *)
Definition file_node : Node := ProtoNode 0 [x02; x05].
Definition symlink_node : Node := ProtoNode 0 [x04].
Definition directory_node : Node := ProtoNode 0 [x01].
Definition broken_node : Node := ProtoNode 0 [xff].
Definition huge_node : Node :=
  ProtoNode 0 [x02; x00; x00; x00; x00; x00; x00; x00; x80].
Definition raw_node : Node := RawNode 1 [x68; x69].
Definition cbor_node : Node := OtherNode 1 [xa0].

(** What [NewFile] makes of the raw node, that file with one read lock
    taken, and the read-only descriptor [Open] returns on it. *)
Definition raw_file : File (C := collaborators) :=
  mkFile (mkInode (C := collaborators) "a.txt" tt true)
         RWMutex.unlocked raw_node Mutex.unlocked true.
Definition raw_file_read : File (C := collaborators) :=
  set_desclock raw_file (RWMutex.mk 1 false).
Definition raw_reader : fileDescriptor (C := collaborators) :=
  mkFd (C := collaborators) OpenReadOnly false (Mod.mk raw_node true).

(** A file whose write lock is held. *)
Definition write_locked (nd : Node) : File (C := collaborators) :=
  set_desclock (file nd true) (RWMutex.mk 0 true).

(** A file on which one read lock is held, and the descriptors [Open]
    returns on a fresh file for reading and for writing. *)
Definition read_locked (nd : Node) : File (C := collaborators) :=
  set_desclock (file nd true) (RWMutex.mk 1 false).
Definition reader (nd : Node) : fileDescriptor (C := collaborators) :=
  mkFd (C := collaborators) OpenReadOnly false (Mod.mk nd false).
Definition writer (nd : Node) : fileDescriptor (C := collaborators) :=
  mkFd (C := collaborators) OpenWriteOnly true (Mod.mk nd false).

(** Another goroutine that installs a node in the file when [nodelk] is
    free. *)
Definition installs_politely (s s' : File (C := collaborators)) : Prop :=
  nodelk s = false /\ s' = set_node s raw_node.

(** Another goroutine that installs a node in the file. *)
Definition installs (s s' : File (C := collaborators)) : Prop :=
  s' = set_node s raw_node.

(** A descriptor flush that fails, and one that installs a node. *)
Definition failing_flush (_ : fileDescriptor (C := collaborators)) :
    prog (C := collaborators) (option error) :=
  Ret (Some (Errorf "flush failed")).
Definition storing_flush (fd : fileDescriptor (C := collaborators)) :
    prog (C := collaborators) (option error) :=
  bind (act nodelk_Lock) (fun _ =>
  bind (act (store_node raw_node)) (fun _ =>
  bind (act nodelk_Unlock) (fun _ => Ret None))).
End Toy.

(** * Properties *)

Section Properties.
Context `{C : Collaborators}.

(** ** Running programs *)

Lemma run_bind (A B : Type) (p : prog A) (f : A -> prog B) (fi : File) :
  run (bind p f) fi =
  match run p fi with
  | Done a fi' => run (f a) fi'
  | Blocked => Blocked
  | Crashed => Crashed
  end.
Proof.
  revert fi; induction p as [a | | T o k IH]; intros fi; simpl; trivial.
  destruct (exec_op o fi); trivial.
Qed.

Lemma nodelk_released (fi : File) :
  nodelk fi = false -> set_nodelk (set_nodelk fi true) false = fi.
Proof. destruct fi; simpl; intros ->; reflexivity. Qed.

Lemma run_Open_snapshot (fi : File) :
  run Open_snapshot fi = if nodelk fi then Blocked else Done (node fi) fi.
Proof.
  unfold Open_snapshot; simpl.
  destruct (nodelk fi) eqn:E; simpl; trivial.
  now rewrite nodelk_released.
Qed.

Lemma run_Open_lock (flags : Z) (fi : File) :
  run (Open_lock flags) fi =
  if flags =? OpenReadOnly then
    match RWMutex.RLock (desclock fi) with
    | Some l => Done None (set_desclock fi l)
    | None => Blocked
    end
  else if (flags =? OpenWriteOnly) || (flags =? OpenReadWrite) then
    match RWMutex.Lock (desclock fi) with
    | Some l => Done None (set_desclock fi l)
    | None => Blocked
    end
  else Done (Some UnsupportedMode) fi.
Proof.
  unfold Open_lock.
  destruct (flags =? OpenReadOnly); simpl.
  - destruct (RWMutex.RLock (desclock fi)); reflexivity.
  - destruct ((flags =? OpenWriteOnly) || (flags =? OpenReadWrite)); simpl; trivial.
    destruct (RWMutex.Lock (desclock fi)); reflexivity.
Qed.

Lemma run_Open_descriptor (nd : Node) (flags : Z) (sync : bool) (fi : File) :
  run (Open_descriptor nd flags sync) fi =
  match NewDagModifier nd (dagService (file_inode fi)) DefaultSplitter with
  | Err e => Done (None, Some e) fi
  | Ok dmod =>
      Done (Some (mkFd flags sync (Mod.set_RawLeaves dmod (RawLeaves fi))), None) fi
  end.
Proof.
  unfold Open_descriptor; simpl.
  destruct (NewDagModifier nd (dagService (file_inode fi)) DefaultSplitter);
    reflexivity.
Qed.

Lemma run_Open_proceed (nd : Node) (flags : Z) (sync : bool) (fi : File) :
  run (Open_proceed nd flags sync) fi =
  match run (Open_lock flags) fi with
  | Done None fi' => run (Open_descriptor nd flags sync) fi'
  | Done (Some e) fi' => Done (None, Some e) fi'
  | Blocked => Blocked
  | Crashed => Crashed
  end.
Proof.
  unfold Open_proceed; rewrite run_bind.
  destruct (run (Open_lock flags) fi) as [ | | [e|] fi']; reflexivity.
Qed.

Lemma run_Open (flags : Z) (sync : bool) (fi : File) :
  run (Open flags sync) fi =
  if nodelk fi then Blocked
  else match Open_validate (node fi) with
       | Some e => Done (None, Some e) fi
       | None => run (Open_proceed (node fi) flags sync) fi
       end.
Proof.
  unfold Open; rewrite run_bind, run_Open_snapshot.
  destruct (nodelk fi); trivial.
  destruct (Open_validate (node fi)); reflexivity.
Qed.

End Properties.

(** ** NewFile *)

Section NewFileProps.
Context `{C : Collaborators}.

Lemma NewFile_value (nm : string) (nd : Node) (p : childCloser)
    (dserv : DAGService) :
  NewFile nm nd p dserv =
  (Some (mkFile (mkInode nm p dserv) RWMutex.unlocked nd Mutex.unlocked
                (0 <? Cid_Prefix_Version nd)), None).
Proof.
  unfold NewFile; simpl.
  destruct (0 <? Cid_Prefix_Version nd); reflexivity.
Qed.

(** C10, as the code has it: [NewFile] panics on a nil node, at
    [node.Cid()]; on every other node it returns a non-nil file and a nil
    error; and whenever it returns, the file is not nil and the error is
    nil: its error result is never used. *)
Theorem NewFile_iface_never_errs (nm : string) (nd : option Node)
    (p : childCloser) (dserv : DAGService) :
  (nd = None -> NewFile_iface nm nd p dserv = Panicked) /\
  (forall n, nd = Some n ->
     exists fi : File,
       NewFile_iface nm nd p dserv = Returned (Some fi, None) /\
       node fi = n) /\
  (forall ofi oe,
     NewFile_iface nm nd p dserv = Returned (ofi, oe) ->
     ofi <> None /\ oe = None /\ nd <> None).
Proof.
  split; [intros ->; reflexivity|]. split.
  - intros n ->; simpl; rewrite NewFile_value.
    eexists; split; reflexivity.
  - intros ofi oe; destruct nd as [n|]; simpl; [|discriminate].
    rewrite NewFile_value; intros [= <- <-].
    repeat split; discriminate.
Qed.

(** An [Open] that returns a nil error returns a descriptor, whose modifier
    has the [RawLeaves] flag of the file. *)
Lemma Open_ok_descriptor (flags : Z) (sync : bool) (fi fi' : File)
    (ofd : option fileDescriptor) :
  run (Open flags sync) fi = Done (ofd, None) fi' ->
  exists fd, ofd = Some fd /\
             Mod.RawLeaves (fd_mod fd) = RawLeaves fi /\
             RawLeaves fi' = RawLeaves fi.
Proof.
  rewrite run_Open, run_Open_proceed, run_Open_lock.
  destruct (nodelk fi); [discriminate|].
  destruct (Open_validate (node fi)); [discriminate|].
  assert (K : forall l,
    run (Open_descriptor (node fi) flags sync) (set_desclock fi l)
      = Done (ofd, None) fi' ->
    exists fd, ofd = Some fd /\
               Mod.RawLeaves (fd_mod fd) = RawLeaves fi /\
               RawLeaves fi' = RawLeaves fi).
  { intros l; rewrite run_Open_descriptor; simpl.
    destruct (NewDagModifier _ _ _) as [dmod|e]; [|discriminate].
    intros [= <- <-]; eexists; split; [reflexivity|]; split; reflexivity. }
  destruct (flags =? OpenReadOnly).
  - destruct (RWMutex.RLock (desclock fi)); [apply K|discriminate].
  - destruct ((flags =? OpenWriteOnly) || (flags =? OpenReadWrite));
      [|discriminate].
    destruct (RWMutex.Lock (desclock fi)); [apply K|discriminate].
Qed.

(** C7: [NewFile] sets [RawLeaves] exactly when the Cid version of the node
    is greater than zero, and every [Open] that returns a nil error returns
    a descriptor whose modifier carries the [RawLeaves] flag of the file. *)
Theorem RawLeaves_policy :
  (forall nm nd p dserv,
      exists fi : File,
        NewFile nm nd p dserv = (Some fi, None) /\
        (RawLeaves fi = true <-> 0 < Cid_Prefix_Version nd)) /\
  (forall flags sync (fi : File) ofd fi',
      run (Open flags sync) fi = Done (ofd, None) fi' ->
      exists fd, ofd = Some fd /\
                 Mod.RawLeaves (fd_mod fd) = RawLeaves fi /\
                 RawLeaves fi' = RawLeaves fi).
Proof.
  split.
  - intros nm nd p dserv; rewrite NewFile_value; eexists; split; [reflexivity|].
    simpl. apply Z.ltb_lt.
  - intros flags sync fi ofd fi'; apply Open_ok_descriptor.
Qed.

End NewFileProps.

(** On the stand-ins: [NewFile] on a version-1 raw node sets [RawLeaves],
    and the modifier of the read-only descriptor opened on that file has it
    too. *)
Lemma RawLeaves_policy_witness :
  (exists fi : File,
      NewFile (C := Toy.collaborators) "a.txt" Toy.raw_node tt true
        = (Some fi, None) /\
      (RawLeaves fi = true <-> 0 < Cid_Prefix_Version Toy.raw_node)) /\
  (exists fd,
      Some Toy.raw_reader = Some fd /\
      Mod.RawLeaves (fd_mod fd) = RawLeaves Toy.raw_file /\
      RawLeaves Toy.raw_file_read = RawLeaves Toy.raw_file).
Proof.
  split.
  - apply (proj1 (RawLeaves_policy (C := Toy.collaborators))).
  - apply (proj2 (RawLeaves_policy (C := Toy.collaborators))
             OpenReadOnly false Toy.raw_file (Some Toy.raw_reader)
             Toy.raw_file_read).
    reflexivity.
Defined.

(** ** Interleaved runs *)

Section Interleaving.
Context `{C : Collaborators}.

(** A run with no step of another goroutine is an interleaved run. *)
Lemma run_runs_with (env : File -> File -> Prop) (A : Type) (p : prog A) :
  forall fi a fi',
    run p fi = Done a fi' -> exists tr, runs_with env p fi tr a fi'.
Proof.
  induction p as [r | | T o k IH]; simpl; intros fi a fi' E.
  - injection E as <- <-. exists []. repeat split.
  - discriminate.
  - destruct (exec_op o fi) as [ | | b fi1] eqn:Eo; try discriminate.
    destruct (IH b _ _ _ E) as [tr Htr].
    exists (fi :: tr), fi, b, fi1, tr.
    repeat split; trivial. constructor.
Qed.

(** The same actions, run among the same goroutines, give the same runs. *)
Lemma same_prog_runs_with (env : File -> File -> Prop) (A : Type)
    (p q : prog A) :
  same_prog p q ->
  forall fi tr a fi', runs_with env p fi tr a fi' <-> runs_with env q fi tr a fi'.
Proof.
  induction 1 as [r | | T o k k' _ IH]; intros fi tr a fi'; simpl;
    try tauto.
  split; intros (s & b & s1 & tr' & H1 & H2 & H3 & H4);
    exists s, b, s1, tr'; repeat split; trivial; now apply IH.
Qed.

Lemma same_prog_run (A : Type) (p q : prog A) :
  same_prog p q -> forall fi, run p fi = run q fi.
Proof.
  induction 1 as [r | | T o k k' _ IH]; intros fi; simpl; trivial.
  destruct (exec_op o fi); trivial.
Qed.

Lemma same_prog_refl (A : Type) (p : prog A) : same_prog p p.
Proof. induction p; constructor; trivial. Qed.

Lemma same_prog_bind (A B : Type) (p : prog A) (f g : A -> prog B) :
  (forall a, same_prog (f a) (g a)) -> same_prog (bind p f) (bind p g).
Proof.
  intros H; induction p as [r | | T o k IH]; simpl; trivial; constructor;
    trivial.
Qed.

End Interleaving.

(** ** GetNode and Size *)

Section Accessors.
Context `{C : Collaborators}.

Lemma run_GetNode (fi : File) :
  run GetNode fi = if nodelk fi then Blocked else Done (node fi, None) fi.
Proof.
  unfold GetNode, defer; simpl.
  destruct (nodelk fi) eqn:E; simpl; trivial.
  now rewrite nodelk_released.
Qed.

(** C8: [GetNode] returns the current node of the file and a nil error, and
    leaves the file as it found it; it waits only while another goroutine
    holds the node mutex, and no run of it, alone or among other
    goroutines, returns an error. *)
Theorem GetNode_never_fails (fi : File) :
  run GetNode fi = (if nodelk fi then Blocked else Done (node fi, None) fi) /\
  (forall env tr r fi', runs_with env GetNode fi tr r fi' -> snd r = None).
Proof.
  split; [apply run_GetNode|].
  intros env tr r fi'; unfold GetNode, defer; simpl.
  intros (s0 & [] & s1 & t0 & _ & _ & _ & s2 & nd & s3 & t1 & _ & _ & _ & H).
  destruct H as (s4 & [] & s5 & t2 & _ & _ & _ & -> & _).
  reflexivity.
Qed.

Lemma run_Size (fi : File) :
  run Size fi =
  if nodelk fi then Blocked
  else Done match node fi with
            | ProtoNode _ data =>
                match FSNodeFromBytes data with
                | Err e => (0, Some e)
                | Ok fsn => (int64 (fsn_FileSize fsn), None)
                end
            | RawNode _ data => (int64 (len data), None)
            | OtherNode _ _ => (0, Some CorruptState)
            end fi.
Proof.
  unfold Size, defer; simpl.
  destruct (nodelk fi) eqn:E; simpl; trivial.
  pose proof (nodelk_released fi E) as R.
  destruct (node fi) as [v data|v data|v data]; simpl;
    try (destruct (FSNodeFromBytes data)); simpl; now rewrite R.
Qed.

Lemma int64_small (z : Z) : - 2 ^ 63 <= z < 2 ^ 63 -> int64 z = z.
Proof.
  intros H; unfold int64.
  rewrite Z.mod_small by lia. lia.
Qed.

(** C4, as the code has it: [Size] returns the declared size of a
    structured node converted to [int64], which is the declared size itself
    when that is below 2^63 (or the decode error of a malformed payload);
    the byte length of a raw-leaf node; the corrupt-state error for a node
    of another kind.  The file is left as it was.  ([Hlk]: no other
    goroutine is inside its critical section on [nodelk]; [Size] waits
    while one is.) *)
Theorem Size_by_node_kind (fi : File) (Hlk : nodelk fi = false) :
  (forall v data fsn,
      node fi = ProtoNode v data -> FSNodeFromBytes data = Ok fsn ->
      run Size fi = Done (int64 (fsn_FileSize fsn), None) fi /\
      (0 <= fsn_FileSize fsn < 2 ^ 63 ->
       run Size fi = Done (fsn_FileSize fsn, None) fi)) /\
  (forall v data e,
      node fi = ProtoNode v data -> FSNodeFromBytes data = Err e ->
      run Size fi = Done (0, Some e) fi) /\
  (forall v data,
      node fi = RawNode v data ->
      run Size fi = Done (int64 (len data), None) fi /\
      (len data < 2 ^ 63 -> run Size fi = Done (len data, None) fi)) /\
  (forall v data,
      node fi = OtherNode v data ->
      run Size fi = Done (0, Some CorruptState) fi).
Proof.
  rewrite run_Size, Hlk.
  repeat split; intros.
  - now rewrite H, H0.
  - rewrite H, H0, int64_small; trivial; lia.
  - now rewrite H, H0.
  - now rewrite H.
  - rewrite H, int64_small; trivial. unfold len in *; lia.
  - now rewrite H.
Qed.

End Accessors.

(** On the stand-ins: [GetNode] returns the node of the file, and its run,
    seen as a run among other goroutines, returns a nil error. *)
Lemma GetNode_never_fails_witness :
  run GetNode (Toy.file Toy.file_node true)
    = Done (Toy.file_node, None) (Toy.file Toy.file_node true) /\
  snd (Toy.file_node, @None error) = None.
Proof.
  split.
  - exact (proj1 (GetNode_never_fails (C := Toy.collaborators)
                    (Toy.file Toy.file_node true))).
  - destruct (run_runs_with (C := Toy.collaborators) Toy.installs _ GetNode
                (Toy.file Toy.file_node true) (Toy.file_node, None)
                (Toy.file Toy.file_node true) eq_refl) as [tr Hrun].
    exact (proj2 (GetNode_never_fails (C := Toy.collaborators)
                    (Toy.file Toy.file_node true)) _ tr _ _ Hrun).
Defined.

(** On the stand-ins: the sizes of a 5-byte unixfs file, of a 2-byte raw
    leaf, of a payload that does not decode and of a CBOR node. *)
Lemma Size_by_node_kind_witness :
  run Size (Toy.file Toy.file_node true)
    = Done (5, None) (Toy.file Toy.file_node true) /\
  run Size (Toy.file Toy.raw_node true)
    = Done (2, None) (Toy.file Toy.raw_node true) /\
  run Size (Toy.file Toy.broken_node true)
    = Done (0, Some (Errorf "unknown data type")) (Toy.file Toy.broken_node true) /\
  run Size (Toy.file Toy.cbor_node true)
    = Done (0, Some CorruptState) (Toy.file Toy.cbor_node true).
Proof.
  split; [|split; [|split]].
  - refine (proj2 (proj1 (Size_by_node_kind (C := Toy.collaborators)
              (Toy.file Toy.file_node true) eq_refl)
              0 [x02; x05] (mkFSNode TFile 5) eq_refl eq_refl) _).
    simpl; lia.
  - refine (proj2 (proj1 (proj2 (proj2 (Size_by_node_kind
              (C := Toy.collaborators)
              (Toy.file Toy.raw_node true) eq_refl)))
              1 [x68; x69] eq_refl) _).
    reflexivity.
  - exact (proj1 (proj2 (Size_by_node_kind (C := Toy.collaborators)
              (Toy.file Toy.broken_node true) eq_refl))
              0 [xff] (Errorf "unknown data type") eq_refl eq_refl).
  - exact (proj2 (proj2 (proj2 (Size_by_node_kind (C := Toy.collaborators)
              (Toy.file Toy.cbor_node true) eq_refl)))
              1 [xa0] eq_refl).
Defined.

(** C4 as stated fails: a structured node that declares 2^63 bytes has
    [Size] return -2^63, not the declared size. *)
Lemma Size_declared_size_counterexample :
  Toy.huge_node = ProtoNode 0 [x02; x00; x00; x00; x00; x00; x00; x00; x80] /\
  FSNodeFromBytes (Collaborators := Toy.collaborators)
    [x02; x00; x00; x00; x00; x00; x00; x00; x80]
    = Ok (mkFSNode TFile (2 ^ 63)) /\
  run Size (Toy.file Toy.huge_node true)
    = Done (- 2 ^ 63, None) (Toy.file Toy.huge_node true) /\
  run Size (Toy.file Toy.huge_node true)
    <> Done (2 ^ 63, None) (Toy.file Toy.huge_node true).
Proof.
  repeat split; try reflexivity.
  vm_compute; discriminate.
Qed.

(** ** Open *)

Section OpenProps.
Context `{C : Collaborators}.

Lemma file_shaped_validates (nd : Node) :
  file_shaped nd = true -> Open_validate nd = None.
Proof.
  destruct nd as [v data|v data|v data]; simpl; trivial; try discriminate.
  destruct (FSNodeFromBytes data) as [fsn|e]; [|discriminate].
  destruct (fsn_Type fsn); trivial; discriminate.
Qed.

(** C2: on a structured node, [Open] returns the decode error of a malformed
    payload, the symlink error for type symlink whatever the flags, the
    unsupported-type error for any type other than file, raw and symlink,
    and goes on to the switch on the flags for type file or raw; on a
    raw-leaf node it always goes on.  The file is as it was when [Open]
    returns one of these errors.  ([Hlk]: no other goroutine is inside its
    critical section on [nodelk]; [Open] waits while one is.) *)
Theorem Open_validates_node (flags : Z) (sync : bool) (fi : File)
    (Hlk : nodelk fi = false) :
  (forall v data e,
      node fi = ProtoNode v data -> FSNodeFromBytes data = Err e ->
      run (Open flags sync) fi = Done (None, Some e) fi) /\
  (forall v data fsn,
      node fi = ProtoNode v data -> FSNodeFromBytes data = Ok fsn ->
      (fsn_Type fsn = TSymlink ->
       run (Open flags sync) fi = Done (None, Some NotSupported) fi) /\
      (fsn_Type fsn <> TSymlink -> fsn_Type fsn <> TFile ->
       fsn_Type fsn <> TRaw ->
       run (Open flags sync) fi = Done (None, Some UnsupportedNodeType) fi) /\
      (fsn_Type fsn = TFile \/ fsn_Type fsn = TRaw ->
       Open_validate (node fi) = None /\
       run (Open flags sync) fi = run (Open_proceed (node fi) flags sync) fi)) /\
  (forall v data,
      node fi = RawNode v data ->
      Open_validate (node fi) = None /\
      run (Open flags sync) fi = run (Open_proceed (node fi) flags sync) fi).
Proof.
  rewrite run_Open, Hlk.
  split; [|split].
  - intros v data e -> E; simpl; now rewrite E.
  - intros v data fsn -> E; simpl; rewrite E.
    split; [|split].
    + now intros ->.
    + intros H1 H2 H3; destruct (fsn_Type fsn); trivial; contradiction.
    + intros [-> | ->]; split; reflexivity.
  - intros v data ->; split; reflexivity.
Qed.

(** C3: on a file-shaped node, [Open] with the read-only flag takes a read
    lock on [desclock] (and waits while the write lock is held); with the
    write-only or read-write flag it takes the write lock (and waits while
    any lock is held); with any other flag it returns the unsupported-mode
    error and leaves the file, its locks included, as it was, so that any
    later [Open] runs as it would have run before.  ([Hlk]: no other
    goroutine is inside its critical section on [nodelk].) *)
Theorem Open_locks_by_mode (flags : Z) (sync : bool) (fi : File)
    (Hlk : nodelk fi = false) (Hshape : file_shaped (node fi) = true) :
  (flags = OpenReadOnly ->
     (RWMutex.writer (desclock fi) = false ->
      exists r, run (Open flags sync) fi =
                Done r (set_desclock fi
                   (RWMutex.mk (S (RWMutex.readers (desclock fi))) false))) /\
     (RWMutex.writer (desclock fi) = true ->
      run (Open flags sync) fi = Blocked)) /\
  (flags = OpenWriteOnly \/ flags = OpenReadWrite ->
     (RWMutex.free (desclock fi) = true ->
      exists r, run (Open flags sync) fi =
                Done r (set_desclock fi (RWMutex.mk 0 true))) /\
     (RWMutex.free (desclock fi) = false ->
      run (Open flags sync) fi = Blocked)) /\
  (flags <> OpenReadOnly -> flags <> OpenWriteOnly -> flags <> OpenReadWrite ->
     run (Open flags sync) fi = Done (None, Some UnsupportedMode) fi /\
     forall r fi', run (Open flags sync) fi = Done r fi' ->
       desclock fi' = desclock fi /\
       forall flags' sync',
         run (Open flags' sync') fi' = run (Open flags' sync') fi).
Proof.
  rewrite run_Open, Hlk, (file_shaped_validates _ Hshape).
  rewrite run_Open_proceed, run_Open_lock.
  assert (D : forall fi0, exists r,
             run (Open_descriptor (node fi) flags sync) fi0 = Done r fi0).
  { intros fi0; rewrite run_Open_descriptor.
    destruct (NewDagModifier _ _ _); eexists; reflexivity. }
  split; [|split].
  - intros ->; simpl; unfold RWMutex.RLock; split; intros ->; trivial;
      apply D.
  - intros H.
    assert (E : (flags =? OpenReadOnly) = false)
      by (destruct H as [-> | ->]; reflexivity).
    assert (E' : (flags =? OpenWriteOnly) || (flags =? OpenReadWrite) = true)
      by (destruct H as [-> | ->]; reflexivity).
    rewrite E, E'; unfold RWMutex.Lock; split; intros ->; trivial;
      apply D.
  - intros H0 H1 H2.
    apply Z.eqb_neq in H0, H1, H2. rewrite H0, H1, H2; simpl.
    split; trivial.
    intros r fi' [= <- <-]; split; trivial.
Qed.

(** Where [Open] leaves the file when it returns an error: untouched when
    the error comes from the type switch or from the flags, with the lock
    taken when it comes from [NewDagModifier]. *)
Lemma Open_error_state (flags : Z) (sync : bool) (fi fi' : File)
    (ofd : option fileDescriptor) (e : error) :
  run (Open flags sync) fi = Done (ofd, Some e) fi' ->
  ofd = None /\
  (fi' = fi \/
   exists l,
     fi' = set_desclock fi l /\
     NewDagModifier (node fi) (dagService (file_inode fi)) DefaultSplitter
       = Err e /\
     (flags = OpenReadOnly /\ RWMutex.RLock (desclock fi) = Some l \/
      (flags = OpenWriteOnly \/ flags = OpenReadWrite) /\
      RWMutex.Lock (desclock fi) = Some l)).
Proof.
  rewrite run_Open.
  destruct (nodelk fi); [discriminate|].
  destruct (Open_validate (node fi)).
  { intros [= <- <- <-]; auto. }
  rewrite run_Open_proceed, run_Open_lock.
  assert (K : forall l,
    run (Open_descriptor (node fi) flags sync) (set_desclock fi l)
      = Done (ofd, Some e) fi' ->
    ofd = None /\ fi' = set_desclock fi l /\
    NewDagModifier (node fi) (dagService (file_inode fi)) DefaultSplitter
      = Err e).
  { intros l; rewrite run_Open_descriptor; simpl.
    destruct (NewDagModifier _ _ _); [discriminate|].
    intros [= <- <- <-]; auto. }
  destruct (flags =? OpenReadOnly) eqn:E0.
  - apply Z.eqb_eq in E0.
    destruct (RWMutex.RLock (desclock fi)) as [l|]; [|discriminate].
    intros H; destruct (K l H) as (-> & -> & Hn); split; trivial.
    right; exists l; auto.
  - destruct ((flags =? OpenWriteOnly) || (flags =? OpenReadWrite)) eqn:E1.
    + apply orb_true_iff in E1. rewrite !Z.eqb_eq in E1.
      destruct (RWMutex.Lock (desclock fi)) as [l|]; [|discriminate].
      intros H; destruct (K l H) as (-> & -> & Hn); split; trivial.
      right; exists l; auto.
    + intros [= <- <- <-]; auto.
Qed.

(** Whenever [NewDagModifier] fails on a file that went through the type
    switch and whose lock was granted, [Open] returns that error and the
    lock it took stays held. *)
Lemma Open_modifier_error_leaks (flags : Z) (sync : bool) (fi : File)
    (e : error) :
  nodelk fi = false ->
  Open_validate (node fi) = None ->
  NewDagModifier (node fi) (dagService (file_inode fi)) DefaultSplitter
    = Err e ->
  (flags = OpenReadOnly -> RWMutex.writer (desclock fi) = false ->
   run (Open flags sync) fi =
   Done (None, Some e)
        (set_desclock fi
           (RWMutex.mk (S (RWMutex.readers (desclock fi))) false))) /\
  (flags = OpenWriteOnly \/ flags = OpenReadWrite ->
   RWMutex.free (desclock fi) = true ->
   run (Open flags sync) fi =
   Done (None, Some e) (set_desclock fi (RWMutex.mk 0 true))).
Proof.
  intros Hlk Hv Hm.
  rewrite run_Open, Hlk, Hv, run_Open_proceed, run_Open_lock.
  split.
  - intros -> Hw.
    change (OpenReadOnly =? OpenReadOnly) with true; cbv iota.
    unfold RWMutex.RLock; rewrite Hw.
    rewrite run_Open_descriptor; simpl. now rewrite Hm.
  - intros H Hf.
    replace (flags =? OpenReadOnly) with false
      by (destruct H as [-> | ->]; reflexivity).
    replace ((flags =? OpenWriteOnly) || (flags =? OpenReadWrite)) with true
      by (destruct H as [-> | ->]; reflexivity).
    unfold RWMutex.Lock; rewrite Hf.
    rewrite run_Open_descriptor; simpl. now rewrite Hm.
Qed.

(** X1: [Open] returns a descriptor or an error, never both and never
    neither. *)
Lemma Open_result_shape (flags : Z) (sync : bool) (fi fi' : File)
    (ofd : option fileDescriptor) (oe : option error) :
  run (Open flags sync) fi = Done (ofd, oe) fi' ->
  (ofd = None /\ oe <> None) \/ (ofd <> None /\ oe = None).
Proof.
  destruct oe as [e|].
  - intros H; apply Open_error_state in H; left; split; [tauto|discriminate].
  - intros H.
    destruct (Open_ok_descriptor flags sync fi fi' ofd H) as [fd [-> _]].
    right; split; [discriminate|reflexivity].
Qed.

End OpenProps.

(** On the stand-ins: a symlink is refused under a flag that is no mode at
    all, a directory is refused as an unsupported type, a payload that does
    not decode gives the decoder's error, and a unixfs file goes on to the
    switch on the flags. *)
Lemma Open_validates_node_witness :
  run (Open 7 true) (Toy.file Toy.symlink_node true)
    = Done (None, Some NotSupported) (Toy.file Toy.symlink_node true) /\
  run (Open OpenReadWrite false) (Toy.file Toy.directory_node true)
    = Done (None, Some UnsupportedNodeType) (Toy.file Toy.directory_node true) /\
  run (Open OpenReadOnly false) (Toy.file Toy.broken_node true)
    = Done (None, Some (Errorf "unknown data type"))
           (Toy.file Toy.broken_node true) /\
  Open_validate (C := Toy.collaborators) Toy.file_node = None.
Proof.
  split; [|split; [|split]].
  - exact (proj1 (proj1 (proj2 (Open_validates_node (C := Toy.collaborators)
             7 true (Toy.file Toy.symlink_node true) eq_refl))
             0 [x04] (mkFSNode TSymlink 0) eq_refl eq_refl) eq_refl).
  - refine (proj1 (proj2 (proj1 (proj2 (Open_validates_node
             (C := Toy.collaborators) OpenReadWrite false
             (Toy.file Toy.directory_node true) eq_refl))
             0 [x01] (mkFSNode TDirectory 0) eq_refl eq_refl)) _ _ _);
      discriminate.
  - exact (proj1 (Open_validates_node (C := Toy.collaborators)
             OpenReadOnly false (Toy.file Toy.broken_node true) eq_refl)
             0 [xff] (Errorf "unknown data type") eq_refl eq_refl).
  - exact (proj1 (proj2 (proj2 (proj1 (proj2 (Open_validates_node
             (C := Toy.collaborators) OpenReadOnly false
             (Toy.file Toy.file_node true) eq_refl))
             0 [x02; x05] (mkFSNode TFile 5) eq_refl eq_refl))
             (or_introl eq_refl))).
Defined.

(** On the stand-ins: a read-only [Open] of a fresh file takes one read
    lock, a write-only one takes the write lock, and flag 9 is refused with
    the file as it was. *)
Lemma Open_locks_by_mode_witness :
  (exists r, run (Open OpenReadOnly false) (Toy.file Toy.file_node true)
             = Done r (set_desclock (Toy.file Toy.file_node true)
                         (RWMutex.mk 1 false))) /\
  (exists r, run (Open OpenWriteOnly false) (Toy.file Toy.file_node true)
             = Done r (set_desclock (Toy.file Toy.file_node true)
                         (RWMutex.mk 0 true))) /\
  run (Open 9 false) (Toy.file Toy.file_node true)
    = Done (None, Some UnsupportedMode) (Toy.file Toy.file_node true).
Proof.
  split; [|split].
  - exact (proj1 (proj1 (Open_locks_by_mode (C := Toy.collaborators)
             OpenReadOnly false (Toy.file Toy.file_node true)
             eq_refl eq_refl) eq_refl) eq_refl).
  - exact (proj1 (proj1 (proj2 (Open_locks_by_mode (C := Toy.collaborators)
             OpenWriteOnly false (Toy.file Toy.file_node true)
             eq_refl eq_refl)) (or_introl eq_refl)) eq_refl).
  - refine (proj1 (proj2 (proj2 (Open_locks_by_mode (C := Toy.collaborators)
             9 false (Toy.file Toy.file_node true) eq_refl eq_refl))
             _ _ _)); discriminate.
Defined.

(** ** Sync *)

Section SyncProps.
Context `{C : Collaborators}.

Lemma free_unlocked (l : RWMutex.t) :
  RWMutex.free l = true -> l = RWMutex.mk 0 false.
Proof.
  destruct l as [n w]; unfold RWMutex.free; simpl.
  destruct w; simpl; [discriminate|].
  destruct n; [reflexivity|discriminate].
Qed.

Lemma run_Sync (fi : File) :
  run Sync fi = if RWMutex.free (desclock fi) then Done None fi else Blocked.
Proof.
  unfold Sync; simpl. unfold RWMutex.Lock.
  destruct (RWMutex.free (desclock fi)) eqn:E; simpl; trivial.
  apply free_unlocked in E. destruct fi; simpl in *; subst; reflexivity.
Qed.

(** The write lock stays held as long as no goroutine releases it. *)
Lemma writer_kept (env : File -> File -> Prop) :
  (forall s s', env s s' ->
     RWMutex.writer (desclock s) = true -> RWMutex.writer (desclock s') = true) ->
  forall fi s, clos_refl_trans_1n File env fi s ->
     RWMutex.writer (desclock fi) = true -> RWMutex.writer (desclock s) = true.
Proof.
  intros Henv fi s H; induction H as [ | x y z Hxy _ IH]; trivial.
  intros Hx; apply IH; now apply (Henv x y).
Qed.

(** A write-mode [Open] that returns a descriptor leaves the write lock
    held. *)
Lemma Open_write_ok (flags : Z) (sync : bool) (fi fi' : File)
    (fd : fileDescriptor) :
  flags = OpenWriteOnly \/ flags = OpenReadWrite ->
  run (Open flags sync) fi = Done (Some fd, None) fi' ->
  RWMutex.free (desclock fi) = true /\
  fi' = set_desclock fi (RWMutex.mk 0 true) /\
  perms fd = flags.
Proof.
  intros Hw.
  rewrite run_Open, run_Open_proceed, run_Open_lock.
  destruct (nodelk fi); [discriminate|].
  destruct (Open_validate (node fi)); [discriminate|].
  replace (flags =? OpenReadOnly) with false
    by (destruct Hw as [-> | ->]; reflexivity).
  replace ((flags =? OpenWriteOnly) || (flags =? OpenReadWrite)) with true
    by (destruct Hw as [-> | ->]; reflexivity).
  unfold RWMutex.Lock.
  destruct (RWMutex.free (desclock fi)); [|discriminate].
  rewrite run_Open_descriptor.
  destruct (NewDagModifier _ _ _); [|discriminate].
  intros [= <- <-]; auto.
Qed.

(** C5: [Sync] takes the write lock of [desclock] and releases it at once,
    and returns nil.  Run alone it returns when the lock is free and waits
    otherwise.  Run among other goroutines, every run of it that returns
    has taken the lock in a state where nobody held it, and returns nil.
    A write-mode [Open] that returned a descriptor left the write lock
    held; as long as no other goroutine releases it (the descriptor is not
    closed), [Sync] does not return. *)
Theorem Sync_barrier (env : File -> File -> Prop) (fi : File) :
  run Sync fi
    = (if RWMutex.free (desclock fi) then Done None fi else Blocked) /\
  (forall tr r fi',
      runs_with env Sync fi tr r fi' ->
      r = None /\
      exists s1 s2,
        tr = [s1; s2] /\
        clos_refl_trans_1n File env fi s1 /\
        RWMutex.free (desclock s1) = true /\
        clos_refl_trans_1n File env (set_desclock s1 (RWMutex.mk 0 true)) s2 /\
        RWMutex.writer (desclock s2) = true /\
        fi' = set_desclock s2
                (RWMutex.mk (RWMutex.readers (desclock s2)) false)) /\
  (forall fi0 flags sync fd,
      flags = OpenWriteOnly \/ flags = OpenReadWrite ->
      run (Open flags sync) fi0 = Done (Some fd, None) fi ->
      RWMutex.writer (desclock fi) = true) /\
  ((forall s s', env s s' ->
      RWMutex.writer (desclock s) = true ->
      RWMutex.writer (desclock s') = true) ->
   RWMutex.writer (desclock fi) = true ->
   run Sync fi = Blocked /\
   forall tr r fi', ~ runs_with env Sync fi tr r fi').
Proof.
  assert (R : forall tr r fi',
      runs_with env Sync fi tr r fi' ->
      r = None /\
      exists s1 s2,
        tr = [s1; s2] /\
        clos_refl_trans_1n File env fi s1 /\
        RWMutex.free (desclock s1) = true /\
        clos_refl_trans_1n File env (set_desclock s1 (RWMutex.mk 0 true)) s2 /\
        RWMutex.writer (desclock s2) = true /\
        fi' = set_desclock s2
                (RWMutex.mk (RWMutex.readers (desclock s2)) false)).
  { intros tr r fi'; unfold Sync; simpl.
    intros (s1 & [] & s1' & t1 & H1 & E1 & -> & H).
    destruct H as (s2 & [] & s2' & t2 & H2 & E2 & -> & -> & -> & ->).
    unfold RWMutex.Lock in E1.
    destruct (RWMutex.free (desclock s1)) eqn:F1; [|discriminate].
    injection E1 as <-.
    unfold RWMutex.Unlock in E2.
    destruct (RWMutex.writer (desclock s2)) eqn:W2; [|discriminate].
    injection E2 as <-.
    split; trivial. exists s1, s2; repeat split; trivial. }
  split; [apply run_Sync|].
  split; [exact R|].
  split.
  - intros fi0 flags sync fd Hw Hopen.
    destruct (Open_write_ok _ _ _ _ _ Hw Hopen) as (_ & -> & _); reflexivity.
  - intros Henv Hw; split.
    + rewrite run_Sync; unfold RWMutex.free; now rewrite Hw.
    + intros tr r fi' Hrun.
      destruct (R _ _ _ Hrun) as (_ & s1 & s2 & _ & Hs1 & F1 & _).
      pose proof (writer_kept env Henv _ _ Hs1 Hw) as W1.
      unfold RWMutex.free in F1; rewrite W1 in F1; discriminate.
Qed.

End SyncProps.

(** On the stand-ins: [Sync] returns nil on a file nobody has open, and
    does not return on a file whose write lock is held while the only other
    goroutine installs nodes. *)
Lemma Sync_barrier_witness :
  run Sync (Toy.file Toy.file_node true)
    = Done None (Toy.file Toy.file_node true) /\
  run Sync (Toy.write_locked Toy.file_node) = Blocked /\
  forall tr r fi',
    ~ runs_with Toy.installs Sync (Toy.write_locked Toy.file_node) tr r fi'.
Proof.
  split.
  - exact (proj1 (Sync_barrier (C := Toy.collaborators) Toy.installs
                    (Toy.file Toy.file_node true))).
  - apply (proj2 (proj2 (proj2 (Sync_barrier (C := Toy.collaborators)
                    Toy.installs (Toy.write_locked Toy.file_node))))).
    + intros s s' ->; simpl; trivial.
    + reflexivity.
Defined.

(** ** Flush *)

Section FlushProps.
Context `{C : Collaborators}.
Variable fd_Flush : fileDescriptor -> prog (option error).
Variable fd_Close : fileDescriptor -> prog (option error).

Lemma Flush_same_prog :
  same_prog (Flush fd_Flush fd_Close) (Flush_spec fd_Flush fd_Close).
Proof.
  unfold Flush, Flush_spec.
  apply same_prog_bind; intros [[fd|] [e|]]; simpl; apply same_prog_refl.
Qed.

Lemma run_Flush (fi : File) :
  run (Flush fd_Flush fd_Close) fi =
  match run (Open OpenWriteOnly true) fi with
  | Done (_, Some open_err) fi1 => Done (Some open_err) fi1
  | Done (Some fd, None) fi1 =>
      match run (fd_Flush fd) fi1 with
      | Done flush_err fi2 =>
          match run (fd_Close fd) fi2 with
          | Done _ fi3 => Done flush_err fi3
          | Blocked => Blocked
          | Crashed => Crashed
          end
      | Blocked => Blocked
      | Crashed => Crashed
      end
  | Done (None, None) _ => Crashed
  | Blocked => Blocked
  | Crashed => Crashed
  end.
Proof.
  unfold Flush; rewrite run_bind.
  destruct (run (Open OpenWriteOnly true) fi) as [ | | [[fd|] [e|]] fi1];
    trivial.
  unfold defer; rewrite run_bind.
  destruct (run (fd_Flush fd) fi1) as [ | | r fi2]; trivial.
  rewrite run_bind.
  destruct (run (fd_Close fd) fi2); trivial.
Qed.

(** C6: [File.Flush] is the program of the specification: [Open] with the
    write-only flag and full sync; on an error of [Open], that error; else
    the descriptor's [Flush], then its [Close] whatever the flush returned,
    and the error of the flush as the result.  The two programs perform the
    same actions, alone and among other goroutines. *)
Theorem Flush_refines_spec :
  same_prog (Flush fd_Flush fd_Close) (Flush_spec fd_Flush fd_Close) /\
  (forall fi,
      run (Flush fd_Flush fd_Close) fi = run (Flush_spec fd_Flush fd_Close) fi) /\
  (forall env fi tr r fi',
      runs_with env (Flush fd_Flush fd_Close) fi tr r fi' <->
      runs_with env (Flush_spec fd_Flush fd_Close) fi tr r fi') /\
  (forall fi,
      run (Flush fd_Flush fd_Close) fi =
      match run (Open OpenWriteOnly true) fi with
      | Done (_, Some open_err) fi1 => Done (Some open_err) fi1
      | Done (Some fd, None) fi1 =>
          match run (fd_Flush fd) fi1 with
          | Done flush_err fi2 =>
              match run (fd_Close fd) fi2 with
              | Done _ fi3 => Done flush_err fi3
              | Blocked => Blocked
              | Crashed => Crashed
              end
          | Blocked => Blocked
          | Crashed => Crashed
          end
      | Done (None, None) _ => Crashed
      | Blocked => Blocked
      | Crashed => Crashed
      end).
Proof.
  split; [apply Flush_same_prog|].
  split; [intros fi; apply same_prog_run, Flush_same_prog|].
  split; [intros env fi tr r fi'; apply same_prog_runs_with, Flush_same_prog|].
  exact run_Flush.
Qed.

(** With [Close] as the specification describes it and a descriptor flush
    that leaves [desclock] alone, [File.Flush] after a successful [Open]
    hands [desclock] back as it found it, whatever the flush returned. *)
Lemma Flush_releases_lock (fi fi' : File) (r : option error) :
  (forall fd s e s', run (fd_Flush fd) s = Done e s' -> desclock s' = desclock s) ->
  (forall ofd e fi1, run (Open OpenWriteOnly true) fi <> Done (ofd, Some e) fi1) ->
  run (Flush fd_Flush spec_Close) fi = Done r fi' ->
  desclock fi' = desclock fi.
Proof.
  intros Hflush Hopen.
  unfold Flush; rewrite run_bind.
  destruct (run (Open OpenWriteOnly true) fi) as [ | | [[fd|] [e|]] fi1] eqn:E;
    try discriminate; try (now destruct (Hopen _ _ _ eq_refl)).
  destruct (Open_write_ok _ _ _ _ _ (or_introl eq_refl) E) as (F & -> & P).
  unfold defer; rewrite run_bind.
  destruct (run (fd_Flush fd) _) as [ | | e fi2] eqn:E2; try discriminate.
  apply Hflush in E2.
  unfold spec_Close; rewrite P; simpl.
  unfold RWMutex.Unlock; rewrite E2; simpl.
  intros [= _ <-]; simpl.
  now apply free_unlocked in F.
Qed.

End FlushProps.

(** On the stand-ins, with [Close] as the specification describes it: the
    error of a failing descriptor flush is what [File.Flush] returns, and
    the descriptor is closed all the same: the file is as it was. *)
Example Flush_surfaces_flush_error :
  run (Flush Toy.failing_flush spec_Close) (Toy.file Toy.file_node true)
    = Done (Some (Errorf "flush failed")) (Toy.file Toy.file_node true).
Proof. reflexivity. Qed.

(** A descriptor flush that installs a node: [File.Flush] returns nil, the
    node is installed and the lock is released. *)
Example Flush_installs_node :
  run (Flush Toy.storing_flush spec_Close) (Toy.file Toy.file_node true)
    = Done None (Toy.file Toy.raw_node true).
Proof. reflexivity. Qed.

(** [File.Flush] gives back the error of an [Open] that fails. *)
Example Flush_returns_open_error :
  run (Flush Toy.storing_flush spec_Close) (Toy.file Toy.symlink_node true)
    = Done (Some NotSupported) (Toy.file Toy.symlink_node true).
Proof. reflexivity. Qed.

(** * Further properties of file.go *)

(** ** What a call of Open does to the file *)

Section OpenCases.
Context `{C : Collaborators}.

(** Every way [Open] can return: from the type switch, from the default
    case of the switch on the flags, or after the lock was granted. *)
Lemma Open_done_cases (flags : Z) (sync : bool) (fi fi' : File)
    (r : option fileDescriptor * option error) :
  run (Open flags sync) fi = Done r fi' ->
  nodelk fi = false /\
  ((exists e, Open_validate (node fi) = Some e /\
              r = (None, Some e) /\ fi' = fi) \/
   (Open_validate (node fi) = None /\
    flags <> OpenReadOnly /\ flags <> OpenWriteOnly /\
    flags <> OpenReadWrite /\
    r = (None, Some UnsupportedMode) /\ fi' = fi) \/
   (Open_validate (node fi) = None /\
    exists l,
      (flags = OpenReadOnly /\ RWMutex.RLock (desclock fi) = Some l \/
       (flags = OpenWriteOnly \/ flags = OpenReadWrite) /\
       RWMutex.Lock (desclock fi) = Some l) /\
      fi' = set_desclock fi l /\
      r = match NewDagModifier (node fi) (dagService (file_inode fi))
                  DefaultSplitter with
          | Err e => (None, Some e)
          | Ok dmod =>
              (Some (mkFd flags sync (Mod.set_RawLeaves dmod (RawLeaves fi))),
               None)
          end)).
Proof.
  rewrite run_Open.
  destruct (nodelk fi); [discriminate|].
  intros H; split; trivial; revert H.
  destruct (Open_validate (node fi)) as [e|].
  { intros [= <- <-]; left; exists e; auto. }
  right. rewrite run_Open_proceed, run_Open_lock in H.
  assert (K : forall l,
    run (Open_descriptor (node fi) flags sync) (set_desclock fi l) = Done r fi' ->
    fi' = set_desclock fi l /\
    r = match NewDagModifier (node fi) (dagService (file_inode fi))
                DefaultSplitter with
        | Err e => (None, Some e)
        | Ok dmod =>
            (Some (mkFd flags sync (Mod.set_RawLeaves dmod (RawLeaves fi))),
             None)
        end).
  { intros l; rewrite run_Open_descriptor; simpl.
    destruct (NewDagModifier _ _ _); intros [= <- <-]; auto. }
  destruct (flags =? OpenReadOnly) eqn:E0.
  - apply Z.eqb_eq in E0.
    destruct (RWMutex.RLock (desclock fi)) as [l|] eqn:El; [|discriminate].
    right; split; trivial; exists l. destruct (K l H); auto.
  - apply Z.eqb_neq in E0.
    destruct ((flags =? OpenWriteOnly) || (flags =? OpenReadWrite)) eqn:E1.
    + apply orb_true_iff in E1; rewrite !Z.eqb_eq in E1.
      destruct (RWMutex.Lock (desclock fi)) as [l|] eqn:El; [|discriminate].
      right; split; trivial; exists l. destruct (K l H); auto.
    + apply orb_false_iff in E1; rewrite !Z.eqb_neq in E1.
      injection H as <- <-; left; tauto.
Qed.

(** A successful [Open], taken apart. *)
Lemma Open_ok_inv (flags : Z) (sy : bool) (fi fi' : File)
    (fd : fileDescriptor) :
  run (Open flags sy) fi = Done (Some fd, None) fi' ->
  nodelk fi = false /\ Open_validate (node fi) = None /\
  exists l dmod,
    (flags = OpenReadOnly /\ RWMutex.RLock (desclock fi) = Some l \/
     (flags = OpenWriteOnly \/ flags = OpenReadWrite) /\
     RWMutex.Lock (desclock fi) = Some l) /\
    fi' = set_desclock fi l /\
    NewDagModifier (node fi) (dagService (file_inode fi)) DefaultSplitter
      = Ok dmod /\
    fd = mkFd flags sy (Mod.set_RawLeaves dmod (RawLeaves fi)).
Proof.
  intros H; destruct (Open_done_cases _ _ _ _ _ H) as [Hlk Hc].
  destruct Hc as [(e & _ & [=] & _) | [(_ & _ & _ & _ & [=] & _) |
                  (Hv & l & Hf & Hfi & Hr)]].
  destruct (NewDagModifier _ _ _) as [dmod|e] eqn:Em; [|discriminate].
  injection Hr as ->.
  split; trivial; split; trivial. exists l, dmod; auto.
Qed.

(** X2: [Open] changes nothing of the file but [desclock]: whatever it
    returns, the node, the [RawLeaves] flag and the inode are as before, and
    [nodelk] is released. *)
Theorem Open_touches_only_desclock (flags : Z) (sync : bool) (fi fi' : File)
    (r : option fileDescriptor * option error) :
  run (Open flags sync) fi = Done r fi' ->
  node fi' = node fi /\ RawLeaves fi' = RawLeaves fi /\
  file_inode fi' = file_inode fi /\ nodelk fi' = false /\
  fi' = set_desclock fi (desclock fi').
Proof.
  intros H; destruct (Open_done_cases _ _ _ _ _ H) as [Hlk Hc].
  assert (E : fi = set_desclock fi (desclock fi)) by (destruct fi; reflexivity).
  destruct Hc as [(e & _ & _ & ->) | [(_ & _ & _ & _ & _ & ->) |
                  (_ & l & _ & -> & _)]]; simpl; auto.
Qed.

(** X3: the descriptor of a successful [Open]: the flags are one of the
    three modes, the current node went through the type switch, the
    descriptor records the flags and the sync argument, and its modifier is
    the one [NewDagModifier] made from the current node and the DAG service
    of the file, with the [RawLeaves] flag of the file. *)
Theorem Open_descriptor_fields (flags : Z) (sy : bool) (fi fi' : File)
    (fd : fileDescriptor) :
  run (Open flags sy) fi = Done (Some fd, None) fi' ->
  (flags = OpenReadOnly \/ flags = OpenWriteOnly \/ flags = OpenReadWrite) /\
  Open_validate (node fi) = None /\
  perms fd = flags /\ sync fd = sy /\
  exists dmod,
    NewDagModifier (node fi) (dagService (file_inode fi)) DefaultSplitter
      = Ok dmod /\
    fd_mod fd = Mod.set_RawLeaves dmod (RawLeaves fi).
Proof.
  intros H.
  destruct (Open_ok_inv _ _ _ _ _ H) as (_ & Hv & l & dmod & Hf & _ & Em & ->).
  simpl; repeat split; trivial; [tauto | exists dmod; auto].
Qed.

(** X4: every error [Open] returns, classified.  It is the error of the
    type switch or the unsupported-mode error, and then the file is as it
    was; or it is the error [NewDagModifier] returned, the flags are one of
    the three modes, and the file differs by the lock [Open] took on
    [desclock], which is still held. *)
Theorem Open_error_cases (flags : Z) (sy : bool) (fi fi' : File)
    (ofd : option fileDescriptor) (e : error) :
  run (Open flags sy) fi = Done (ofd, Some e) fi' ->
  ofd = None /\
  ((fi' = fi /\
    (Open_validate (node fi) = Some e \/
     Open_validate (node fi) = None /\ e = UnsupportedMode /\
     flags <> OpenReadOnly /\ flags <> OpenWriteOnly /\
     flags <> OpenReadWrite)) \/
   (Open_validate (node fi) = None /\
    NewDagModifier (node fi) (dagService (file_inode fi)) DefaultSplitter
      = Err e /\
    (flags = OpenReadOnly /\
     desclock fi' = RWMutex.mk (S (RWMutex.readers (desclock fi))) false \/
     (flags = OpenWriteOnly \/ flags = OpenReadWrite) /\
     desclock fi' = RWMutex.mk 0 true) /\
    desclock fi' <> desclock fi)).
Proof.
  intros H; destruct (Open_done_cases _ _ _ _ _ H) as [_ Hc].
  destruct Hc as [(e0 & Hv & [= <- <-] & ->) |
                  [(Hv & H0 & H1 & H2 & [= <- <-] & ->) |
                   (Hv & l & Hf & -> & Hr)]].
  - split; trivial; left; auto.
  - split; trivial; left; split; trivial; right; auto.
  - destruct (NewDagModifier _ _ _) as [dmod|e0] eqn:Em; [discriminate|].
    injection Hr as <- <-. split; trivial. right.
    split; trivial. split; trivial. simpl.
    destruct Hf as [[-> Hl] | [Hw Hl]].
    + unfold RWMutex.RLock in Hl.
      destruct (RWMutex.writer (desclock fi)) eqn:W; [discriminate|].
      injection Hl as <-. split; [left; auto|].
      destruct (desclock fi) as [n w]; simpl; intros [= Hn _]; lia.
    + unfold RWMutex.Lock in Hl.
      destruct (RWMutex.free (desclock fi)) eqn:F; [|discriminate].
      injection Hl as <-. split; [right; auto|].
      unfold RWMutex.free in F. intros E; rewrite <- E in F; discriminate.
Qed.

End OpenCases.

(** On the stand-ins: a read-only [Open] of a unixfs file returns a
    descriptor and no error. *)
Lemma Open_result_shape_witness :
  (Some (Toy.reader Toy.file_node) = None /\ @None error <> None) \/
  (Some (Toy.reader Toy.file_node) <> None /\ @None error = None).
Proof.
  exact (Open_result_shape (C := Toy.collaborators) OpenReadOnly false
           (Toy.file Toy.file_node true) (Toy.read_locked Toy.file_node)
           (Some (Toy.reader Toy.file_node)) None eq_refl).
Defined.

(** On the stand-ins: the node of a file is the same after a read-only
    [Open]. *)
Lemma Open_touches_only_desclock_witness :
  node (Toy.read_locked Toy.file_node) = node (Toy.file Toy.file_node true).
Proof.
  exact (proj1 (Open_touches_only_desclock (C := Toy.collaborators)
           OpenReadOnly false
           (Toy.file Toy.file_node true) (Toy.read_locked Toy.file_node)
           (Some (Toy.reader Toy.file_node), None) eq_refl)).
Defined.

(** On the stand-ins: the descriptor of a write-only, full-sync [Open]
    records the flag. *)
Lemma Open_descriptor_fields_witness :
  perms (Toy.writer Toy.file_node) = OpenWriteOnly /\
  sync (Toy.writer Toy.file_node) = true.
Proof.
  pose proof (Open_descriptor_fields (C := Toy.collaborators)
           OpenWriteOnly true
           (Toy.file Toy.file_node true) (Toy.write_locked Toy.file_node)
           (Toy.writer Toy.file_node) eq_refl) as (_ & _ & P & S & _).
  exact (conj P S).
Defined.

(** On the stand-ins: the modifier refuses a CBOR node; [Open] returns no
    descriptor, and [desclock] is not as it was. *)
Lemma Open_error_cases_witness :
  @None (fileDescriptor (C := Toy.collaborators)) = None /\
  desclock (Toy.write_locked Toy.cbor_node)
    <> desclock (Toy.file Toy.cbor_node true).
Proof.
  pose proof (Open_error_cases (C := Toy.collaborators) OpenWriteOnly false
           (Toy.file Toy.cbor_node true) (Toy.write_locked Toy.cbor_node)
           None ErrNotUnixfs eq_refl) as [E H].
  split; [exact E|].
  destruct H as [[H _] | (_ & _ & _ & H)]; [discriminate H | exact H].
Defined.

(** ** Descriptors that are open at the same time *)

Section Sharing.
Context `{C : Collaborators}.
Variable fd_Flush : fileDescriptor -> prog (option error).
Variable fd_Close : fileDescriptor -> prog (option error).

(** [File.Flush] waits whenever [Open] for writing waits. *)
Lemma Flush_blocked (fi : File) :
  run (Open OpenWriteOnly true) fi = Blocked ->
  run (Flush fd_Flush fd_Close) fi = Blocked.
Proof. intros H; unfold Flush; rewrite run_bind, H; reflexivity. Qed.

(** [Open] on a file whose node went through the type switch, by the state
    of [desclock]. *)
Lemma Open_blocked_write (flags : Z) (sy : bool) (fi : File) :
  nodelk fi = false -> Open_validate (node fi) = None ->
  flags = OpenWriteOnly \/ flags = OpenReadWrite ->
  RWMutex.free (desclock fi) = false ->
  run (Open flags sy) fi = Blocked.
Proof.
  intros Hlk Hv Hw Hf.
  rewrite run_Open, Hlk, Hv, run_Open_proceed, run_Open_lock.
  replace (flags =? OpenReadOnly) with false
    by (destruct Hw as [-> | ->]; reflexivity).
  replace ((flags =? OpenWriteOnly) || (flags =? OpenReadWrite)) with true
    by (destruct Hw as [-> | ->]; reflexivity).
  unfold RWMutex.Lock; now rewrite Hf.
Qed.

Lemma Open_blocked_read (sy : bool) (fi : File) :
  nodelk fi = false -> Open_validate (node fi) = None ->
  RWMutex.writer (desclock fi) = true ->
  run (Open OpenReadOnly sy) fi = Blocked.
Proof.
  intros Hlk Hv Hw.
  rewrite run_Open, Hlk, Hv, run_Open_proceed, run_Open_lock.
  change (OpenReadOnly =? OpenReadOnly) with true; cbv iota.
  unfold RWMutex.RLock; now rewrite Hw.
Qed.

(** X5: a write descriptor is exclusive.  After an [Open] for writing or
    for reading and writing has returned a descriptor, and until that lock
    is released, every [Open] with one of the three modes waits, and so do
    [Sync] and [File.Flush]. *)
Theorem Open_write_excludes_all (flags : Z) (sy : bool) (fi fi1 : File)
    (fd : fileDescriptor)
    (Hw : flags = OpenWriteOnly \/ flags = OpenReadWrite)
    (Hopen : run (Open flags sy) fi = Done (Some fd, None) fi1) :
  (forall flags' sy',
      flags' = OpenReadOnly \/ flags' = OpenWriteOnly \/
      flags' = OpenReadWrite ->
      run (Open flags' sy') fi1 = Blocked) /\
  run Sync fi1 = Blocked /\
  run (Flush fd_Flush fd_Close) fi1 = Blocked.
Proof.
  destruct (Open_ok_inv _ _ _ _ _ Hopen) as (Hlk & Hv & _).
  destruct (Open_write_ok _ _ _ _ _ Hw Hopen) as (_ & -> & _).
  set (fi1 := set_desclock fi (RWMutex.mk 0 true)).
  assert (F : RWMutex.free (desclock fi1) = false) by reflexivity.
  assert (W : RWMutex.writer (desclock fi1) = true) by reflexivity.
  assert (Hlk1 : nodelk fi1 = false) by exact Hlk.
  assert (Hv1 : Open_validate (node fi1) = None) by exact Hv.
  split; [|split].
  - intros flags' sy' [-> | H'].
    + now apply Open_blocked_read.
    + now apply Open_blocked_write.
  - rewrite run_Sync, F; reflexivity.
  - apply Flush_blocked, Open_blocked_write; auto.
Qed.

(** X6: a read descriptor keeps writers out.  After a read-only [Open] has
    returned a descriptor, and until that lock is released, an [Open] for
    writing or for reading and writing waits, and so do [Sync] and
    [File.Flush]: [Sync] waits for readers too. *)
Theorem Open_read_excludes_writers (sy : bool) (fi fi1 : File)
    (fd : fileDescriptor)
    (Hopen : run (Open OpenReadOnly sy) fi = Done (Some fd, None) fi1) :
  (forall flags' sy',
      flags' = OpenWriteOnly \/ flags' = OpenReadWrite ->
      run (Open flags' sy') fi1 = Blocked) /\
  run Sync fi1 = Blocked /\
  run (Flush fd_Flush fd_Close) fi1 = Blocked.
Proof.
  destruct (Open_ok_inv _ _ _ _ _ Hopen)
    as (Hlk & Hv & l & dmod & Hf & -> & Em & ->).
  destruct Hf as [[_ Hl] | [[H | H] _]]; [|discriminate H|discriminate H].
  unfold RWMutex.RLock in Hl.
  destruct (RWMutex.writer (desclock fi)) eqn:W; [discriminate|].
  injection Hl as <-.
  set (fi1 := set_desclock fi
                (RWMutex.mk (S (RWMutex.readers (desclock fi))) false)).
  assert (F : RWMutex.free (desclock fi1) = false) by reflexivity.
  assert (Hlk1 : nodelk fi1 = false) by exact Hlk.
  assert (Hv1 : Open_validate (node fi1) = None) by exact Hv.
  split; [|split].
  - intros flags' sy' H'; apply Open_blocked_write; auto.
  - rewrite run_Sync, F; reflexivity.
  - apply Flush_blocked, Open_blocked_write; auto.
Qed.

End Sharing.

(** On the stand-ins: with a write descriptor open, a read-only [Open],
    [Sync] and [File.Flush] wait. *)
Lemma Open_write_excludes_all_witness :
  run (Open OpenReadOnly false) (Toy.write_locked Toy.file_node) = Blocked /\
  run Sync (Toy.write_locked Toy.file_node) = Blocked /\
  run (Flush Toy.storing_flush spec_Close) (Toy.write_locked Toy.file_node)
    = Blocked.
Proof.
  pose proof (Open_write_excludes_all (C := Toy.collaborators)
                Toy.storing_flush spec_Close OpenWriteOnly true
                (Toy.file Toy.file_node true) (Toy.write_locked Toy.file_node)
                (Toy.writer Toy.file_node) (or_introl eq_refl) eq_refl)
    as (HO & HS & HF).
  exact (conj (HO OpenReadOnly false (or_introl eq_refl)) (conj HS HF)).
Defined.

(** On the stand-ins: with a read descriptor open, a writer, [Sync] and
    [File.Flush] wait. *)
Lemma Open_read_excludes_writers_witness :
  run (Open OpenReadWrite true) (Toy.read_locked Toy.file_node) = Blocked /\
  run Sync (Toy.read_locked Toy.file_node) = Blocked /\
  run (Flush Toy.storing_flush spec_Close) (Toy.read_locked Toy.file_node)
    = Blocked.
Proof.
  pose proof (Open_read_excludes_writers (C := Toy.collaborators)
                Toy.storing_flush spec_Close false
                (Toy.file Toy.file_node true) (Toy.read_locked Toy.file_node)
                (Toy.reader Toy.file_node) eq_refl)
    as (HW & HS & HF).
  exact (conj (HW OpenReadWrite true (or_intror eq_refl)) (conj HS HF)).
Defined.

(** ** Size and GetNode beside open descriptors *)

Section AccessorsExtra.
Context `{C : Collaborators}.

Lemma int64_range (z : Z) : - 2 ^ 63 <= int64 z < 2 ^ 63.
Proof.
  unfold int64.
  pose proof (Z.mod_pos_bound (z + 2 ^ 63) (2 ^ 64) ltac:(lia)). lia.
Qed.

(** X7: [Size] and [GetNode] do not wait on [desclock]: whatever locks the
    descriptors hold on it, they return what they return on the file with
    no descriptor open, and leave [desclock] as it is. *)
Theorem accessors_ignore_desclock (fi : File) (l : RWMutex.t)
    (Hlk : nodelk fi = false) :
  (exists r, run Size fi = Done r fi /\
             run Size (set_desclock fi l) = Done r (set_desclock fi l)) /\
  run GetNode (set_desclock fi l) = Done (node fi, None) (set_desclock fi l).
Proof.
  split.
  - eexists; split; rewrite run_Size; simpl; rewrite Hlk; reflexivity.
  - rewrite run_GetNode; simpl; rewrite Hlk; reflexivity.
Qed.

(** X8: what [Size] returns is an [int64]; it is 0 whenever the error is
    not nil; and a second call returns the same as the first. *)
Theorem Size_result_shape (fi fi' : File) (n : Z) (oe : option error) :
  run Size fi = Done (n, oe) fi' ->
  - 2 ^ 63 <= n < 2 ^ 63 /\
  (oe <> None -> n = 0) /\
  fi' = fi /\
  run Size fi' = Done (n, oe) fi'.
Proof.
  intros H; pose proof H as H'; revert H.
  rewrite run_Size.
  destruct (nodelk fi); [discriminate|].
  intros [= E <-]. split; [|split; [|split]]; trivial.
  - destruct (node fi) as [v d|v d|v d];
      try destruct (FSNodeFromBytes d);
      injection E as <- <-; try apply int64_range; lia.
  - destruct (node fi) as [v d|v d|v d];
      try destruct (FSNodeFromBytes d);
      injection E as <- <-; trivial; intros K; now destruct K.
Qed.

End AccessorsExtra.

(** On the stand-ins: with the write lock held, [Size] of a 5-byte unixfs
    file is 5 and [GetNode] returns its node. *)
Lemma accessors_ignore_desclock_witness :
  (exists r, run Size (Toy.file Toy.file_node true)
               = Done r (Toy.file Toy.file_node true) /\
             run Size (Toy.write_locked Toy.file_node)
               = Done r (Toy.write_locked Toy.file_node)) /\
  run GetNode (Toy.write_locked Toy.file_node)
    = Done (Toy.file_node, None) (Toy.write_locked Toy.file_node).
Proof.
  exact (accessors_ignore_desclock (C := Toy.collaborators)
           (Toy.file Toy.file_node true) (RWMutex.mk 0 true) eq_refl).
Defined.

(** On the stand-ins: the size of a payload that does not decode is 0, with
    the error. *)
Lemma Size_result_shape_witness :
  - 2 ^ 63 <= 0 < 2 ^ 63 /\
  (Some (Errorf "unknown data type") <> None -> 0 = 0) /\
  Toy.file Toy.broken_node true = Toy.file Toy.broken_node true /\
  run Size (Toy.file Toy.broken_node true)
    = Done (0, Some (Errorf "unknown data type")) (Toy.file Toy.broken_node true).
Proof.
  exact (Size_result_shape (C := Toy.collaborators)
           (Toy.file Toy.broken_node true) (Toy.file Toy.broken_node true)
           0 (Some (Errorf "unknown data type")) eq_refl).
Defined.

(** ** A file just made by NewFile, and what never happens *)

Section Fresh.
Context `{C : Collaborators}.
Variable fd_Flush : fileDescriptor -> prog (option error).
Variable fd_Close : fileDescriptor -> prog (option error).

Lemma Open_not_crashed (flags : Z) (sy : bool) (fi : File) :
  run (Open flags sy) fi <> Crashed.
Proof.
  rewrite run_Open.
  destruct (nodelk fi); [discriminate|].
  destruct (Open_validate (node fi)); [discriminate|].
  rewrite run_Open_proceed, run_Open_lock.
  assert (K : forall fi0,
             run (Open_descriptor (node fi) flags sy) fi0 <> Crashed).
  { intros fi0; rewrite run_Open_descriptor.
    destruct (NewDagModifier _ _ _); discriminate. }
  destruct (flags =? OpenReadOnly).
  - destruct (RWMutex.RLock (desclock fi)); [apply K|discriminate].
  - destruct ((flags =? OpenWriteOnly) || (flags =? OpenReadWrite));
      [|discriminate].
    destruct (RWMutex.Lock (desclock fi)); [apply K|discriminate].
Qed.

(** X9: a file made by [NewFile] holds the name, parent, DAG service and
    node it was given; [GetNode] returns that node; nobody holds a lock on
    it: [Sync] returns at once and no [Open] waits. *)
Theorem NewFile_fresh (nm : string) (nd : Node) (p : childCloser)
    (dserv : DAGService) (fi : File) :
  NewFile nm nd p dserv = (Some fi, None) ->
  name (file_inode fi) = nm /\ parent (file_inode fi) = p /\
  dagService (file_inode fi) = dserv /\
  run GetNode fi = Done (nd, None) fi /\
  run Sync fi = Done None fi /\
  forall flags sy, exists r fi', run (Open flags sy) fi = Done r fi'.
Proof.
  rewrite NewFile_value; intros [= <-].
  repeat split.
  intros flags sy.
  rewrite run_Open; simpl.
  destruct (Open_validate nd); [eexists; eexists; reflexivity|].
  rewrite run_Open_proceed, run_Open_lock; simpl.
  assert (K : forall fi0, exists r fi',
             run (Open_descriptor nd flags sy) fi0 = Done r fi').
  { intros fi0; rewrite run_Open_descriptor.
    destruct (NewDagModifier _ _ _); eexists; eexists; reflexivity. }
  destruct (flags =? OpenReadOnly); [apply K|].
  destruct ((flags =? OpenWriteOnly) || (flags =? OpenReadWrite));
    [apply K | eexists; eexists; reflexivity].
Qed.

(** X10: no method unlocks a mutex it does not hold, and [File.Flush] never
    calls a method on a nil descriptor: [Open], [Size], [GetNode] and [Sync]
    never stop the program, and [File.Flush] stops it only where the
    descriptor's own [Flush] or [Close] does. *)
Theorem methods_never_crash (fi : File) :
  (forall flags sy, run (Open flags sy) fi <> Crashed) /\
  run Size fi <> Crashed /\
  run GetNode fi <> Crashed /\
  run Sync fi <> Crashed /\
  (run (Flush fd_Flush fd_Close) fi = Crashed ->
   exists fd fi1,
     run (Open OpenWriteOnly true) fi = Done (Some fd, None) fi1 /\
     (run (fd_Flush fd) fi1 = Crashed \/
      exists e fi2, run (fd_Flush fd) fi1 = Done e fi2 /\
                    run (fd_Close fd) fi2 = Crashed)).
Proof.
  split; [intros; apply Open_not_crashed|].
  split; [rewrite run_Size; destruct (nodelk fi); discriminate|].
  split; [rewrite run_GetNode; destruct (nodelk fi); discriminate|].
  split; [rewrite run_Sync; destruct (RWMutex.free _); discriminate|].
  rewrite run_Flush.
  destruct (run (Open OpenWriteOnly true) fi) as [ | | [ofd oe] fi1] eqn:E;
    [discriminate | now destruct (Open_not_crashed _ _ _ E) |].
  destruct oe as [e|]; [destruct ofd; discriminate|].
  destruct (Open_ok_descriptor _ _ _ _ _ E) as (fd & -> & _).
  destruct (run (fd_Flush fd) fi1) as [ | | e fi2] eqn:Ef; [discriminate | |].
  - intros _; exists fd, fi1; auto.
  - destruct (run (fd_Close fd) fi2) eqn:Ec; try discriminate.
    intros _; exists fd, fi1; split; trivial.
    right; exists e, fi2; auto.
Qed.

End Fresh.

(** On the stand-ins: the file [NewFile] makes of the raw node gives that
    node back. *)
Lemma NewFile_fresh_witness :
  run GetNode Toy.raw_file = Done (Toy.raw_node, None) Toy.raw_file /\
  run Sync Toy.raw_file = Done None Toy.raw_file.
Proof.
  pose proof (NewFile_fresh (C := Toy.collaborators) "a.txt" Toy.raw_node tt
                true Toy.raw_file eq_refl) as (_ & _ & _ & G & S & _).
  exact (conj G S).
Defined.

(** On the stand-ins: a descriptor whose [Flush] already unlocks makes the
    deferred [Close] unlock a lock that is not held; the program stops in
    [Close], after an [Open] that returned a descriptor. *)
Lemma methods_never_crash_witness :
  exists fd fi1,
    run (Open OpenWriteOnly true) (Toy.file Toy.file_node true)
      = Done (Some fd, None) fi1 /\
    (run (spec_Close fd) fi1 = Crashed \/
     exists e fi2, run (spec_Close fd) fi1 = Done e fi2 /\
                   run (spec_Close fd) fi2 = Crashed).
Proof.
  exact (proj2 (proj2 (proj2 (proj2
           (methods_never_crash (C := Toy.collaborators)
              spec_Close spec_Close (Toy.file Toy.file_node true)))))
           eq_refl).
Defined.

(** ** Methods run among other goroutines *)

Section Atomicity.
Context `{C : Collaborators}.
Variable env : File -> File -> Prop.

(** Goroutines that respect [nodelk]: while it is held by another one they
    neither release it nor change the node. *)
Lemma nodelk_respected (s s' : File) :
  (forall a b, env a b -> nodelk a = true ->
               nodelk b = true /\ node b = node a) ->
  clos_refl_trans_1n File env s s' ->
  nodelk s = true -> nodelk s' = true /\ node s' = node s.
Proof.
  intros Henv H; induction H as [ | x y z Hxy _ IH]; auto.
  intros Hx; destruct (Henv x y Hxy Hx) as [Hy Ey].
  destruct (IH Hy) as [Hz Ez]; split; congruence.
Qed.

(** X11: [GetNode] and [Size] are atomic.  Among goroutines that respect
    [nodelk], a run of either returns what the method returns when run
    alone in the state in which it took [nodelk], and the node of the file
    is still that one when it returns. *)
Theorem accessors_atomic (fi : File)
    (Henv : forall a b, env a b -> nodelk a = true ->
                        nodelk b = true /\ node b = node a) :
  (forall tr r fi',
      runs_with env GetNode fi tr r fi' ->
      exists s0, clos_refl_trans_1n File env fi s0 /\
                 run GetNode s0 = Done r s0 /\
                 node fi' = node s0 /\ nodelk fi' = false) /\
  (forall tr r fi',
      runs_with env Size fi tr r fi' ->
      exists s0, clos_refl_trans_1n File env fi s0 /\
                 run Size s0 = Done r s0 /\
                 node fi' = node s0 /\ nodelk fi' = false).
Proof.
  assert (L : forall s0 s0' : File,
             exec_op nodelk_Lock s0 = Done tt s0' ->
             nodelk s0 = false /\ s0' = set_nodelk s0 true).
  { intros s0 s0'; simpl. destruct (nodelk s0); [discriminate|].
    intros [= <-]; auto. }
  assert (U : forall s2 s2' : File,
             exec_op nodelk_Unlock s2 = Done tt s2' ->
             s2' = set_nodelk s2 false).
  { intros s2 s2'; simpl. destruct (nodelk s2); [|discriminate].
    intros [= <-]; auto. }
  split; intros tr r fi'.
  - intros H; unfold GetNode, defer in H; simpl in H.
    destruct H as (s0 & [] & s0' & t0 & H0 & E0 & _ & s1 & nd & s1' & t1 & H1 & E1 & _ & H).
    destruct H as (s2 & [] & s2' & t2 & H2 & E2 & _ & -> & _ & ->).
    destruct (L _ _ E0) as [Hlk ->]. injection E1 as <- <-.
    apply U in E2; subst s2'.
    destruct (nodelk_respected _ _ Henv H1 eq_refl) as [K1 N1].
    destruct (nodelk_respected _ _ Henv H2 K1) as [K2 N2].
    exists s0; split; trivial.
    rewrite run_GetNode, Hlk. simpl in *.
    split; [congruence|]. split; [congruence | reflexivity].
  - intros H; unfold Size, defer in H; simpl in H.
    destruct H as (s0 & [] & s0' & t0 & H0 & E0 & _ & s1 & nd & s1' & t1 & H1 & E1 & _ & H).
    destruct (L _ _ E0) as [Hlk ->]. injection E1 as <- <-.
    destruct (nodelk_respected _ _ Henv H1 eq_refl) as [K1 N1].
    simpl in N1.
    assert (R : forall x : Z * option error,
      runs_with env
        (bind (Ret x) (fun a => bind (act nodelk_Unlock) (fun _ => Ret a)))
        s1 t1 r fi' ->
      r = x /\ node fi' = node s0 /\ nodelk fi' = false).
    { intros x; simpl.
      intros (s2 & [] & s2' & t2 & H2 & E2 & _ & -> & _ & ->).
      apply U in E2; subst s2'.
      destruct (nodelk_respected _ _ Henv H2 K1) as [K2 N2].
      simpl; split; trivial; split; [congruence | reflexivity]. }
    exists s0; split; trivial.
    rewrite run_Size, Hlk, <- N1.
    destruct (node s1) as [v d|v d|v d];
      try destruct (FSNodeFromBytes d);
      destruct (R _ H) as (-> & Hn & Hk); repeat split; congruence.
Qed.

End Atomicity.

(** On the stand-ins: another goroutine installs the raw node before
    [GetNode] takes [nodelk]; [GetNode] returns the raw node. *)
Lemma GetNode_after_install :
  exists tr,
    runs_with Toy.installs_politely GetNode (Toy.file Toy.file_node true) tr
      (Toy.raw_node, None) (Toy.file Toy.raw_node true).
Proof.
  eexists; unfold GetNode, defer; simpl.
  exists (Toy.file Toy.raw_node true), tt; eexists; eexists.
  split; [econstructor; [split; reflexivity | constructor]|].
  split; [reflexivity|]. split; [reflexivity|].
  eexists; eexists; eexists; eexists.
  split; [constructor|]. split; [reflexivity|]. split; [reflexivity|].
  eexists; exists tt; eexists; eexists.
  split; [constructor|]. split; [reflexivity|]. split; [reflexivity|].
  repeat split.
Qed.

(** On the stand-ins, for that run: it returns what [GetNode] returns alone
    in the state in which it took [nodelk], where the raw node was
    installed. *)
Lemma accessors_atomic_witness :
  exists s0,
    clos_refl_trans_1n _ Toy.installs_politely (Toy.file Toy.file_node true) s0 /\
    run GetNode s0 = Done (Toy.raw_node, None) s0 /\
    node (Toy.file Toy.raw_node true) = node s0 /\
    nodelk (Toy.file Toy.raw_node true) = false.
Proof.
  destruct GetNode_after_install as [tr H].
  refine (proj1 (accessors_atomic (C := Toy.collaborators)
                   Toy.installs_politely (Toy.file Toy.file_node true) _)
            tr _ _ H).
  intros a b [Hf _] Ht; rewrite Hf in Ht; discriminate.
Defined.

Section Snapshot.
Context `{C : Collaborators}.
Variable env : File -> File -> Prop.

(** X12: the modifier is bound to a snapshot.  In every run of [Open] among
    other goroutines that returns a descriptor, [Open] performed six
    actions; the node that went through the type switch and that the
    modifier was made from is the one read at the second action, under
    [nodelk] and before the lock on [desclock] was taken at the fourth; that
    lock was granted in a state with no writer (read-only) or with nobody
    (write modes). *)
Theorem Open_binds_snapshot (flags : Z) (sy : bool) (fi fi' : File)
    (tr : list File) (fd : fileDescriptor) :
  runs_with env (Open flags sy) fi tr (Some fd, None) fi' ->
  exists s0 s1 s2 s3 s4 s5 dmod,
    tr = [s0; s1; s2; s3; s4; s5] /\
    nodelk s0 = false /\
    Open_validate (node s1) = None /\
    (flags = OpenReadOnly /\ RWMutex.writer (desclock s3) = false \/
     (flags = OpenWriteOnly \/ flags = OpenReadWrite) /\
     RWMutex.free (desclock s3) = true) /\
    NewDagModifier (node s1) (dagService (file_inode s4)) DefaultSplitter
      = Ok dmod /\
    fd = mkFd flags sy (Mod.set_RawLeaves dmod (RawLeaves s5)) /\
    fi' = s5.
Proof.
  intros H; unfold Open, Open_snapshot, Open_proceed in H; simpl in H.
  destruct H as (s0 & [] & s0' & t0 & _ & E0 & -> & s1 & nd & s1' & t1 & _ & E1 & -> & H).
  destruct H as (s2 & [] & s2' & t2 & _ & _ & -> & H).
  injection E1 as <- <-.
  assert (Hlk : nodelk s0 = false)
    by (destruct (nodelk s0); [discriminate E0 | reflexivity]).
  destruct (Open_validate (node s1)) eqn:V;
    [simpl in H; destruct H as [[=] _]|].
  assert (D : forall s t,
    runs_with env (Open_descriptor (node s1) flags sy) s t (Some fd, None) fi' ->
    exists s4 s5 dmod,
      t = [s4; s5] /\
      NewDagModifier (node s1) (dagService (file_inode s4)) DefaultSplitter
        = Ok dmod /\
      fd = mkFd flags sy (Mod.set_RawLeaves dmod (RawLeaves s5)) /\
      fi' = s5).
  { intros s t; unfold Open_descriptor; simpl.
    intros (s4 & ino & s4' & t4 & _ & E4 & -> & K).
    injection E4 as <- <-.
    destruct (NewDagModifier _ _ _) as [dmod|e] eqn:Em;
      [|simpl in K; destruct K as [[=] _]].
    simpl in K. destruct K as (s5 & rl & s5' & t5 & _ & E5 & -> & K).
    injection E5 as <- <-. destruct K as ([= ->] & -> & ->).
    exists s4, s5, dmod; auto. }
  unfold Open_lock in H.
  destruct (flags =? OpenReadOnly) eqn:F0.
  - apply Z.eqb_eq in F0. simpl in H.
    destruct H as (s3 & [] & s3' & t3 & _ & E3 & -> & K).
    destruct (D _ _ K) as (s4 & s5 & dmod & -> & Em & Ef & Ei).
    exists s0, s1, s2, s3, s4, s5, dmod.
    repeat split; trivial. left; split; trivial.
    unfold RWMutex.RLock in E3.
    destruct (RWMutex.writer (desclock s3)); [discriminate E3 | reflexivity].
  - destruct ((flags =? OpenWriteOnly) || (flags =? OpenReadWrite)) eqn:F1.
    + apply orb_true_iff in F1; rewrite !Z.eqb_eq in F1. simpl in H.
      destruct H as (s3 & [] & s3' & t3 & _ & E3 & -> & K).
      destruct (D _ _ K) as (s4 & s5 & dmod & -> & Em & Ef & Ei).
      exists s0, s1, s2, s3, s4, s5, dmod.
      repeat split; trivial. right; split; trivial.
      unfold RWMutex.Lock in E3.
      destruct (RWMutex.free (desclock s3)); [reflexivity | discriminate E3].
    + simpl in H. destruct H as [[=] _].
Qed.

End Snapshot.

(** On the stand-ins: another goroutine installs the raw node after [Open]
    has read the node and before it takes the write lock.  [Open] returns a
    descriptor whose modifier was made from the unixfs file node, on a file
    whose node is the raw node. *)
Lemma Open_snapshot_can_be_stale :
  exists tr,
    runs_with Toy.installs (Open OpenWriteOnly true)
      (Toy.file Toy.file_node true) tr
      (Some (Toy.writer Toy.file_node), None) (Toy.write_locked Toy.raw_node).
Proof.
  eexists; unfold Open, Open_snapshot, Open_proceed; simpl.
  exists (Toy.file Toy.file_node true), tt; eexists; eexists.
  split; [constructor|]. split; [reflexivity|]. split; [reflexivity|].
  eexists; eexists; eexists; eexists.
  split; [constructor|]. split; [reflexivity|]. split; [reflexivity|].
  eexists; exists tt; eexists; eexists.
  split; [constructor|]. split; [reflexivity|]. split; [reflexivity|].
  simpl.
  exists (Toy.file Toy.raw_node true), tt; eexists; eexists.
  split; [econstructor; [reflexivity | constructor]|].
  split; [reflexivity|]. split; [reflexivity|].
  simpl.
  eexists; eexists; eexists; eexists.
  split; [constructor|]. split; [reflexivity|]. split; [reflexivity|].
  simpl.
  eexists; eexists; eexists; eexists.
  split; [constructor|]. split; [reflexivity|]. split; [reflexivity|].
  repeat split.
Qed.

(** On the stand-ins, for that run: the modifier was made from the node of
    the second state of the run, the file's node when [Open] read it. *)
Lemma Open_binds_snapshot_witness :
  exists (s1 s4 s5 : File (C := Toy.collaborators))
         (dmod : DagModifier (C := Toy.collaborators)),
    Open_validate (C := Toy.collaborators) (node s1) = None /\
    NewDagModifier (Collaborators := Toy.collaborators)
      (node s1) (dagService (file_inode s4)) DefaultSplitter = Ok dmod /\
    Toy.writer Toy.file_node
      = mkFd (C := Toy.collaborators) OpenWriteOnly true
          (Mod.set_RawLeaves dmod (RawLeaves s5)) /\
    Toy.write_locked Toy.raw_node = s5.
Proof.
  destruct Open_snapshot_can_be_stale as [tr H].
  destruct (Open_binds_snapshot (C := Toy.collaborators) Toy.installs
              OpenWriteOnly true _ _ tr _ H)
    as (s0 & s1 & s2 & s3 & s4 & s5 & dmod & _ & _ & H1 & _ & H2 & H3 & H4).
  exists s1, s4, s5, dmod. repeat split; trivial.
Defined.

(** ** Nodes that are neither ProtoNode nor RawNode, and the nil node *)

(** The stand-in for the modifier does what the one of go-unixfs does. *)
Lemma Toy_unixfs_modifier : unixfs_modifier (H := Toy.collaborators).
Proof.
  intros [v d|v d|v d] dserv spl; simpl;
    [eexists; reflexivity | eexists; reflexivity | reflexivity].
Qed.

Section OtherNodes.
Context `{C : Collaborators}.
Hypothesis Hmod : unixfs_modifier.

Lemma NewDagModifier_other (v : Z) (data : list byte) (dserv : DAGService) :
  NewDagModifier (OtherNode v data) dserv DefaultSplitter = Err ErrNotUnixfs.
Proof. exact (Hmod (OtherNode v data) dserv DefaultSplitter). Qed.

(** No [Open] returns a descriptor on a node of another kind. *)
Lemma Open_other_node_fails (flags : Z) (sy : bool) (fi fi' : File)
    (v : Z) (data : list byte) (fd : fileDescriptor) :
  node fi = OtherNode v data ->
  run (Open flags sy) fi <> Done (Some fd, None) fi'.
Proof.
  intros Hnode H.
  destruct (Open_ok_inv _ _ _ _ _ H) as (_ & _ & l & dmod & _ & _ & Em & _).
  rewrite Hnode, NewDagModifier_other in Em; discriminate.
Qed.

(** C1, the defect: on a file whose node is neither a ProtoNode nor a
    RawNode and whose lock is free, a write-mode [Open] goes through the
    type switch, takes the write lock, gets [ErrNotUnixfs] from
    [NewDagModifier] and returns it with the lock still held.  The file is
    not as it was; every later [Open] with one of the three modes waits,
    and so does [Sync], which returned at once before the failed call. *)
Theorem Open_modifier_error_keeps_lock (flags : Z) (sy : bool) (fi : File)
    (v : Z) (data : list byte)
    (Hlk : nodelk fi = false) (Hnode : node fi = OtherNode v data)
    (Hw : flags = OpenWriteOnly \/ flags = OpenReadWrite)
    (Hfree : RWMutex.free (desclock fi) = true) :
  run (Open flags sy) fi
    = Done (None, Some ErrNotUnixfs) (set_desclock fi (RWMutex.mk 0 true)) /\
  set_desclock fi (RWMutex.mk 0 true) <> fi /\
  (forall flags' sy',
      flags' = OpenReadOnly \/ flags' = OpenWriteOnly \/
      flags' = OpenReadWrite ->
      run (Open flags' sy') (set_desclock fi (RWMutex.mk 0 true)) = Blocked) /\
  run Sync (set_desclock fi (RWMutex.mk 0 true)) = Blocked /\
  run Sync fi = Done None fi.
Proof.
  assert (Hv : Open_validate (node fi) = None) by now rewrite Hnode.
  set (fi1 := set_desclock fi (RWMutex.mk 0 true)).
  assert (Hlk1 : nodelk fi1 = false) by exact Hlk.
  assert (Hv1 : Open_validate (node fi1) = None) by exact Hv.
  split; [|split; [|split; [|split]]].
  - apply (Open_modifier_error_leaks flags sy fi ErrNotUnixfs Hlk Hv); trivial.
    rewrite Hnode; apply NewDagModifier_other.
  - intros E. apply (f_equal desclock) in E; simpl in E.
    rewrite <- E in Hfree; discriminate.
  - intros flags' sy' [-> | H'].
    + now apply Open_blocked_read.
    + now apply Open_blocked_write.
  - rewrite run_Sync; reflexivity.
  - rewrite run_Sync, Hfree; reflexivity.
Qed.

(** C9, as the code has it: the type switch of [Open] has no case for a
    node that is neither a ProtoNode nor a RawNode: [Open] goes on to the
    switch on the flags with it, takes the lock and calls [NewDagModifier]
    on it, which refuses it: [Open] returns [ErrNotUnixfs] and never a
    descriptor.  [Size] on such a file returns the corrupt-state error; on
    a file that was successfully opened it returns a nil error.
    ([Hlk]: no other goroutine is inside its critical section on
    [nodelk].) *)
Theorem Open_other_node_not_opened (flags : Z) (sy : bool) (fi : File)
    (v : Z) (data : list byte)
    (Hlk : nodelk fi = false) (Hnode : node fi = OtherNode v data) :
  Open_validate (node fi) = None /\
  run (Open flags sy) fi = run (Open_proceed (OtherNode v data) flags sy) fi /\
  run Size fi = Done (0, Some CorruptState) fi /\
  (flags = OpenReadOnly -> RWMutex.writer (desclock fi) = false ->
   run (Open flags sy) fi =
   Done (None, Some ErrNotUnixfs)
        (set_desclock fi
           (RWMutex.mk (S (RWMutex.readers (desclock fi))) false))) /\
  (flags = OpenWriteOnly \/ flags = OpenReadWrite ->
   RWMutex.free (desclock fi) = true ->
   run (Open flags sy) fi =
   Done (None, Some ErrNotUnixfs) (set_desclock fi (RWMutex.mk 0 true))) /\
  (forall fd fi', run (Open flags sy) fi <> Done (Some fd, None) fi') /\
  (forall flags0 sy0 (f0 f1 : File) fd,
      run (Open flags0 sy0) f0 = Done (Some fd, None) f1 ->
      exists n, run Size f1 = Done (n, None) f1).
Proof.
  assert (Hv : Open_validate (node fi) = None) by now rewrite Hnode.
  assert (Hm : NewDagModifier (node fi) (dagService (file_inode fi))
                 DefaultSplitter = Err ErrNotUnixfs)
    by (rewrite Hnode; apply NewDagModifier_other).
  split; trivial.
  split; [rewrite run_Open, Hlk, Hnode; reflexivity|].
  split; [rewrite run_Size, Hlk, Hnode; reflexivity|].
  split;
    [apply (Open_modifier_error_leaks flags sy fi ErrNotUnixfs Hlk Hv Hm)|].
  split;
    [apply (Open_modifier_error_leaks flags sy fi ErrNotUnixfs Hlk Hv Hm)|].
  split; [intros fd fi'; now apply (Open_other_node_fails _ _ _ _ v data)|].
  intros flags0 sy0 f0 f1 fd H.
  destruct (Open_ok_inv _ _ _ _ _ H) as (Hl0 & Hv0 & l & dmod & _ & -> & Em & _).
  rewrite run_Size; simpl; rewrite Hl0.
  destruct (node f0) as [v0 d0|v0 d0|v0 d0] eqn:En.
  - simpl in Hv0. destruct (FSNodeFromBytes d0); [|discriminate].
    eexists; reflexivity.
  - eexists; reflexivity.
  - rewrite NewDagModifier_other in Em; discriminate.
Qed.

End OtherNodes.

(** On the stand-ins: a file on a CBOR node, opened for writing. *)
Lemma Open_modifier_error_keeps_lock_witness :
  run (Open OpenWriteOnly false) (Toy.file Toy.cbor_node true)
    = Done (None, Some ErrNotUnixfs) (Toy.write_locked Toy.cbor_node) /\
  Toy.write_locked Toy.cbor_node <> Toy.file Toy.cbor_node true /\
  run (Open OpenReadOnly false) (Toy.write_locked Toy.cbor_node) = Blocked /\
  run Sync (Toy.write_locked Toy.cbor_node) = Blocked /\
  run Sync (Toy.file Toy.cbor_node true)
    = Done None (Toy.file Toy.cbor_node true).
Proof.
  pose proof (Open_modifier_error_keeps_lock (C := Toy.collaborators)
                Toy_unixfs_modifier OpenWriteOnly false
                (Toy.file Toy.cbor_node true) 1 [xa0]
                eq_refl eq_refl (or_introl eq_refl) eq_refl)
    as (H1 & H2 & H3 & H4 & H5).
  exact (conj H1 (conj H2 (conj (H3 OpenReadOnly false (or_introl eq_refl))
                                (conj H4 H5)))).
Defined.

(** On the stand-ins: [Size] of a file on a CBOR node is the corrupt-state
    error, no read-only [Open] of it returns a descriptor, and [Size] of the
    unixfs file that was opened for writing returns a nil error. *)
Lemma Open_other_node_not_opened_witness :
  run Size (Toy.file Toy.cbor_node true)
    = Done (0, Some CorruptState) (Toy.file Toy.cbor_node true) /\
  run (Open OpenReadOnly true) (Toy.file Toy.cbor_node true)
    = Done (None, Some ErrNotUnixfs) (Toy.read_locked Toy.cbor_node) /\
  exists n, run Size (Toy.write_locked Toy.file_node)
            = Done (n, None) (Toy.write_locked Toy.file_node).
Proof.
  pose proof (Open_other_node_not_opened (C := Toy.collaborators)
                Toy_unixfs_modifier OpenReadOnly true
                (Toy.file Toy.cbor_node true) 1 [xa0] eq_refl eq_refl)
    as (_ & _ & HS & HR & _ & _ & HO).
  split; [exact HS|]. split; [exact (HR eq_refl eq_refl)|].
  exact (HO OpenWriteOnly true (Toy.file Toy.file_node true)
            (Toy.write_locked Toy.file_node) (Toy.writer Toy.file_node)
            eq_refl).
Defined.

(** C9 as stated fails: [Open] does go through the type switch with a CBOR
    node, but with no flags does it return a descriptor: the file on which
    [Size] returns the corrupt-state error was not successfully opened. *)
Lemma Open_other_node_counterexample :
  run Size (Toy.file Toy.cbor_node true)
    = Done (0, Some CorruptState) (Toy.file Toy.cbor_node true) /\
  run (Open OpenReadOnly true) (Toy.file Toy.cbor_node true)
    = Done (None, Some ErrNotUnixfs) (Toy.read_locked Toy.cbor_node) /\
  run (Open OpenWriteOnly true) (Toy.file Toy.cbor_node true)
    = Done (None, Some ErrNotUnixfs) (Toy.write_locked Toy.cbor_node) /\
  run (Open OpenReadWrite true) (Toy.file Toy.cbor_node true)
    = Done (None, Some ErrNotUnixfs) (Toy.write_locked Toy.cbor_node) /\
  (forall flags sy fd fi',
      run (Open flags sy) (Toy.file Toy.cbor_node true)
        <> Done (Some fd, None) fi').
Proof.
  repeat split; try reflexivity.
  intros flags sy fd fi'.
  apply (Open_other_node_fails (C := Toy.collaborators) Toy_unixfs_modifier
           flags sy (Toy.file Toy.cbor_node true) fi' 1 [xa0] fd eq_refl).
Qed.

(** On the stand-ins: [NewFile] on the raw node returns a file that holds
    it, and a nil error. *)
Lemma NewFile_iface_never_errs_witness :
  exists fi : File,
    NewFile_iface (C := Toy.collaborators) "a.txt" (Some Toy.raw_node) tt true
      = Returned (Some fi, None) /\
    node fi = Toy.raw_node.
Proof.
  exact (proj1 (proj2 (NewFile_iface_never_errs (C := Toy.collaborators)
                         "a.txt" (Some Toy.raw_node) tt true))
           Toy.raw_node eq_refl).
Defined.

(** C10 as stated fails: on a nil node [NewFile] panics and returns
    nothing, neither a file nor an error. *)
Lemma NewFile_nil_counterexample :
  NewFile_iface (C := Toy.collaborators) "a.txt" None tt true = Panicked /\
  forall fi,
    NewFile_iface (C := Toy.collaborators) "a.txt" None tt true
      <> Returned (Some fi, None).
Proof. split; [reflexivity | discriminate]. Qed.
